(** * Rooftop solar analysis: the estimation engine and the vision client

    A shallow embedding of [app.py]: the qualitative-to-numeric estimation
    pipeline [perform_simplified_calculations] and the error handling of
    [get_roof_analysis_from_ai], with the properties the specification
    states about them.

    Python values are modelled as the interpreter has them: [int] as [Z],
    [float] as IEEE-754 binary64 (the kernel's primitive floats), [str] as
    [string] (the UTF-8 bytes of the text), a [dict] received from
    [json.loads] as a finite map from keys to JSON values, and a raised
    exception as the [Raise] case of a result type. *)

From Stdlib Require Import ZArith Floats String Ascii List Bool Lia.
From Stdlib.Strings Require Import Byte.
From stdpp Require Import gmap strings pretty.

Set Warnings "-inexact-float,-register-all".
Local Open Scope string_scope.
Local Open Scope Z_scope.

(** ** Exceptions and results *)

(** The exception classes the two functions can meet.  [BaseOnly] stands for
    the classes that derive from [BaseException] but not from [Exception]
    ([KeyboardInterrupt], [SystemExit], ...); [OtherError] for any further
    subclass of [Exception] (the HTTP client's connection, authentication and
    rate-limit errors among them). *)
Inductive exn_class :=
| AttributeError
| TypeError
| ValueError
| OverflowError
| ZeroDivisionError
| IndexError
| UnboundLocalError
| JSONDecodeError
| OtherError (name : string)
| BaseOnly (name : string).

(** An exception: its class and [str(e)]. *)
Record exn := Exn { exn_cls : exn_class; exn_str : string }.

(** [isinstance(e, Exception)] *)
Definition is_Exception (e : exn) : bool :=
  match exn_cls e with
  | BaseOnly _ => false
  | _ => true
  end.

(** [isinstance(e, json.JSONDecodeError)] *)
Definition is_JSONDecodeError (e : exn) : bool :=
  match exn_cls e with
  | JSONDecodeError => true
  | _ => false
  end.

Inductive result (A : Type) :=
| Ok (a : A)
| Raise (e : exn).
Arguments Ok {A} a.
Arguments Raise {A} e.

#[global] Instance result_ret : MRet result := fun A a => Ok a.
#[global] Instance result_bind : MBind result := fun A B f m =>
  match m with
  | Ok a => f a
  | Raise e => Raise e
  end.

(** ** Python values *)

(** What [json.loads] can return (and the values a [dict] can hold). *)
Inductive pyval :=
| PNone
| PBool (b : bool)
| PInt (z : Z)
| PFloat (f : float)
| PStr (s : string)
| PList (l : list pyval)
| PDict (kvs : list (string * pyval)).

(** [type(v).__name__] *)
Definition type_name (v : pyval) : string :=
  match v with
  | PNone => "NoneType"
  | PBool _ => "bool"
  | PInt _ => "int"
  | PFloat _ => "float"
  | PStr _ => "str"
  | PList _ => "list"
  | PDict _ => "dict"
  end.

(** A number held by a local variable of the engine: [int] or [float]. *)
Inductive pynum :=
| NInt (z : Z)
| NFloat (f : float).

(** ** Strings *)

Module PyStr.

(** [s.startswith(p)] *)
Fixpoint startswith (p s : string) : bool :=
  match p, s with
  | EmptyString, _ => true
  | String a p', String b s' => Ascii.eqb a b && startswith p' s'
  | String _ _, EmptyString => false
  end.

(** [needle in hay] for two strings: [needle] occurs at some offset. *)
Fixpoint contains (needle hay : string) : bool :=
  startswith needle hay ||
  match hay with
  | EmptyString => false
  | String _ hay' => contains needle hay'
  end.

(** The mathematical reading of "hay contains needle". *)
Definition Substring (needle hay : string) : Prop :=
  exists pre post, hay = pre +:+ needle +:+ post.

(** Lowercasing of the ASCII letters, every other byte unchanged.  On text
    without cased non-ASCII letters this is [str.lower]. *)
Definition lower_ascii (c : ascii) : ascii :=
  let n := N_of_ascii c in
  if ((65 <=? n) && (n <=? 90))%N then ascii_of_N (n + 32) else c.

Fixpoint ascii_lower (s : string) : string :=
  match s with
  | EmptyString => EmptyString
  | String c s' => String (lower_ascii c) (ascii_lower s')
  end.

End PyStr.

(** ** Numbers *)

Module PyNum.

(** [float(z)]: the nearest binary64, ties to even; an [int] beyond the
    range of binary64 raises [OverflowError]. *)
Definition float_of_int (z : Z) : result float :=
  let f := SF2Prim (binary_normalize prec emax z 0 false) in
  if is_infinity f
  then Raise (Exn OverflowError "int too large to convert to float")
  else Ok f.

(** The operand of a mixed-mode operation, converted to [float]. *)
Definition as_float (x : pynum) : result float :=
  match x with
  | NInt z => float_of_int z
  | NFloat f => Ok f
  end.

(** [x * y].  Two [int]s multiply exactly; otherwise both operands are
    taken to [float] and multiplied in binary64 (no exception on overflow:
    the product is then an infinity). *)
Definition mul (x y : pynum) : result pynum :=
  match x, y with
  | NInt a, NInt b => Ok (NInt (a * b))
  | _, _ =>
      a ← as_float x;
      b ← as_float y;
      Ok (NFloat (a * b)%float)
  end.

(** [x == 0] *)
Definition is_zero (x : pynum) : bool :=
  match x with
  | NInt z => z =? 0
  | NFloat f => (f =? 0)%float
  end.

(** [x > 0] *)
Definition gt0 (x : pynum) : bool :=
  match x with
  | NInt z => 0 <? z
  | NFloat f => (0 <? f)%float
  end.

(** [x / y] (true division): always a [float]; a zero divisor raises
    [ZeroDivisionError].  For two [int]s CPython divides their [float]
    conversions whenever both are below [2^53] in magnitude, which is the
    path every [int] operand of this program takes. *)
Definition truediv (x y : pynum) : result float :=
  if is_zero y
  then Raise (Exn ZeroDivisionError "division by zero")
  else
    a ← as_float x;
    b ← as_float y;
    Ok (a / b)%float.

(** [math.floor(x)] of a [float]: the greatest [int] not above [x]; an
    infinity raises [OverflowError], a NaN [ValueError]. *)
Definition math_floor (x : float) : result Z :=
  match Prim2SF x with
  | S754_zero _ => Ok 0
  | S754_finite s m e =>
      let v := if s then Z.neg m else Z.pos m in
      Ok (if 0 <=? e then v * 2 ^ e else v / 2 ^ (- e))
  | S754_infinity _ =>
      Raise (Exn OverflowError "cannot convert float infinity to integer")
  | S754_nan =>
      Raise (Exn ValueError "cannot convert float NaN to integer")
  end.

End PyNum.

(** ** The estimation engine *)

(** The module-level constants of [app.py]. *)
Definition PANEL_WATTAGE : Z := 400.
Definition PANEL_AREA_SQ_FT : Z := 18.
Definition PANEL_COST_PER_WATT : float := 70.00%float.
Definition AVG_ELECTRICITY_RATE_PER_KWH : float := 6.50%float.
Definition SYSTEM_LIFESPAN_YEARS : Z := 25.

(** The dictionary [perform_simplified_calculations] returns, one field per
    key.  The first three values are always [int]s; the energy and the cost
    are the [int] [0] or a [float]; the payback period is a [float] or a
    [str]. *)
Record NumericEstimate := {
  estimated_usable_sq_ft : Z;
  estimated_panel_count : Z;
  estimated_system_wattage : Z;
  estimated_yearly_kwh : pynum;
  estimated_system_cost : pynum;
  estimated_yearly_savings : pynum;
  estimated_roi_years : pyval
}.

(** The value of [estimated_roi_years] when there are no savings. *)
Definition ROI_NOT_APPLICABLE : pyval := PStr "N/A (No significant savings)".

Section Engine.

Import PyStr PyNum.

(** [str.lower] of the Python runtime (its Unicode tables are not part of
    the program). *)
Variable str_lower : string -> string.

(** [v.lower()] on a value taken from the dictionary: only a [str] has the
    method. *)
Definition lower (v : pyval) : result string :=
  match v with
  | PStr s => Ok (str_lower s)
  | _ => Raise (Exn AttributeError
                  ("'" +:+ type_name v +:+ "' object has no attribute 'lower'"))
  end.

(** [d.get(key, 'N/A').lower()] *)
Definition get_lower (d : gmap string pyval) (key : string) : result string :=
  lower (default (PStr "N/A") (d !! key)).

(** Lines 85-92: qualitative area to square feet. *)
Definition area_lookup (usable_area_qualitative : string) : Z :=
  if contains "large" usable_area_qualitative then 600
  else if contains "medium" usable_area_qualitative then 300
  else if contains "small" usable_area_qualitative then 100
  else 0.

(** Lines 95-98: number of panels. *)
Definition panel_count (estimated_usable_sq_ft : Z) : result Z :=
  if 0 <? estimated_usable_sq_ft
  then
    q ← truediv (NInt estimated_usable_sq_ft) (NInt PANEL_AREA_SQ_FT);
    math_floor q
  else Ok 0.

(** Lines 104-110: production factor from the sunlight exposure. *)
Definition production_factor_lookup (sunlight_exposure : string) : float :=
  if contains "excellent" sunlight_exposure then 1.2%float
  else if contains "moderate" sunlight_exposure then 0.8%float
  else if contains "poor" sunlight_exposure
          || contains "significant shading" sunlight_exposure then 0.5%float
  else 1.0%float.

(** Line 115: yearly energy production. *)
Definition yearly_kwh (estimated_system_wattage : Z) (production_factor : float)
  : result pynum :=
  if 0 <? estimated_system_wattage
  then
    a ← mul (NInt estimated_system_wattage) (NFloat 1.4%float);
    b ← mul a (NFloat production_factor);
    c ← truediv b (NInt 1000);
    Ok (NFloat c)
  else Ok (NInt 0).

(** Line 118: system cost. *)
Definition system_cost (estimated_system_wattage : Z) : result pynum :=
  if 0 <? estimated_system_wattage
  then
    a ← truediv (NInt estimated_system_wattage) (NInt 1000);
    b ← mul (NFloat a) (NFloat PANEL_COST_PER_WATT);
    mul b (NInt 1000)
  else Ok (NInt 0).

(** Lines 124-127: payback period. *)
Definition roi_years (estimated_system_cost estimated_yearly_savings : pynum)
  : result pyval :=
  if gt0 estimated_yearly_savings
  then
    r ← truediv estimated_system_cost estimated_yearly_savings;
    Ok (PFloat r)
  else Ok ROI_NOT_APPLICABLE.

(** Lines 80-137. *)
Definition perform_simplified_calculations (ai_analysis : gmap string pyval)
  : result NumericEstimate :=
  usable_area_qualitative ← get_lower ai_analysis "usable_area_qualitative";
  sunlight_exposure ← get_lower ai_analysis "sunlight_exposure";
  let sq_ft := area_lookup usable_area_qualitative in
  count ← panel_count sq_ft;
  let wattage := count * PANEL_WATTAGE in
  let production_factor := production_factor_lookup sunlight_exposure in
  kwh ← yearly_kwh wattage production_factor;
  cost ← system_cost wattage;
  savings ← mul kwh (NFloat AVG_ELECTRICITY_RATE_PER_KWH);
  roi ← roi_years cost savings;
  Ok {| estimated_usable_sq_ft := sq_ft;
        estimated_panel_count := count;
        estimated_system_wattage := wattage;
        estimated_yearly_kwh := kwh;
        estimated_system_cost := cost;
        estimated_yearly_savings := savings;
        estimated_roi_years := roi |}.

End Engine.

(** ** The vision analysis client *)

(** The response object of the chat-completion call, as far as the program
    reads it: [response.choices[i].message.content]. *)
Record chat_message := { content : option string }.
Record chat_choice := { message : chat_message }.
Record chat_completion := { choices : list chat_choice }.

(** The keyword arguments of [client.chat.completions.create]. *)
Record chat_request := {
  req_model : string;
  req_text : string;
  req_image_url : string;
  req_max_tokens : Z;
  req_response_format : string
}.

Section VisionClient.

(** The instruction text of the request (lines 46-57). *)
Variable prompt_text : string.

(** [client.chat.completions.create] and the service behind it: a call
    takes the service from one state to the next and either returns a
    response or raises.  What the library does inside one call (its own
    HTTP retries among it) is part of that call. *)
Variable service : Type.
Variable create : chat_request -> service -> result chat_completion * service.

(** [json.loads] on a [str]. *)
Variable json_loads : string -> result pyval.

(** [l[0]] *)
Definition first_choice (l : list chat_choice) : result chat_choice :=
  match l with
  | c :: _ => Ok c
  | [] => Raise (Exn IndexError "list index out of range")
  end.

(** [response.choices[0].message.content] *)
Definition message_content (response : chat_completion) : result (option string) :=
  c ← first_choice (choices response);
  Ok (content (message c)).

(** [json.loads(ai_content)]: anything but text is a [TypeError]. *)
Definition loads (ai_content : option string) : result pyval :=
  match ai_content with
  | Some text => json_loads text
  | None =>
      Raise (Exn TypeError
               "the JSON object must be str, bytes or bytearray, not NoneType")
  end.

(** A value of the response inside an f-string, and as a dictionary value. *)
Definition format_content (c : option string) : string :=
  match c with Some text => text | None => "None" end.
Definition content_value (c : option string) : pyval :=
  match c with Some text => PStr text | None => PNone end.

(** Reading the local variable [response], which is bound only once the
    call of line 40 has returned. *)
Definition read_response (response : option chat_completion)
  : result chat_completion :=
  match response with
  | Some r => Ok r
  | None =>
      Raise (Exn UnboundLocalError
               "cannot access local variable 'response' where it is not associated with a value")
  end.

(** What a call of the client leaves behind: the value it returns or the
    exception that leaves it, the state of the service, and the messages
    shown with [st.error]. *)
Record client_run := {
  outcome : result pyval;
  service_after : service;
  shown_errors : list string
}.

Definition build_request (image_base64 : string) : chat_request :=
  {| req_model := "openai/gpt-4o";
     req_text := prompt_text;
     req_image_url := "data:image/jpeg;base64," +:+ image_base64;
     req_max_tokens := 500;
     req_response_format := "json_object" |}.

(** Lines 40-72, the body of the [try]: bind [response] to what the call
    returns, read the content and parse it. *)
Definition try_block (called : result chat_completion) : result pyval :=
  response ← called;
  ai_content ← message_content response;
  loads ai_content.

(** Lines 38-77. *)
Definition get_roof_analysis_from_ai (image_base64 : string) (s : service)
  : client_run :=
  let (called, s') := create (build_request image_base64) s in
  let response := match called with Ok r => Some r | Raise _ => None end in
  match try_block called with
  | Ok analysis =>
      {| outcome := Ok analysis; service_after := s'; shown_errors := [] |}
  | Raise e =>
      if is_JSONDecodeError e then
        (* except json.JSONDecodeError as e: *)
        match (r ← read_response response; message_content r) with
        | Ok raw =>
            {| outcome :=
                 Ok (PDict [("error", PStr ("JSON parsing error: " +:+ exn_str e));
                            ("raw_response", content_value raw)]);
               service_after := s';
               shown_errors :=
                 ["Failed to parse AI response as JSON: " +:+ exn_str e
                  +:+ ". Raw response: " +:+ format_content raw] |}
        | Raise e' =>
            {| outcome := Raise e'; service_after := s'; shown_errors := [] |}
        end
      else if is_Exception e then
        (* except Exception as e: *)
        {| outcome :=
             Ok (PDict [("error", PStr ("Error during AI analysis: " +:+ exn_str e))]);
           service_after := s';
           shown_errors := [] |}
      else
        {| outcome := Raise e; service_after := s'; shown_errors := [] |}
  end.

End VisionClient.

(** ** The image encoder *)

(** The uploaded file object, as far as the program reads it. *)
Record UploadedFile := {
  file_name : string;
  getvalue : list byte
}.

Module Base64.

(** The alphabet of RFC 4648 and the padding character. *)
Definition alphabet : list byte :=
  list_byte_of_string
    "ABCDEFGHIJKLMNOPQRSTUVWXYZabcdefghijklmnopqrstuvwxyz0123456789+/".
Definition pad : byte := "="%byte.

(** The character of a six-bit value. *)
Definition digit (n : N) : byte := nth (N.to_nat n) alphabet pad.

(** The four six-bit values of a group of three octets. *)
Definition sextets (a b c : N) : N * N * N * N :=
  (a / 4, (a mod 4) * 16 + b / 16, (b mod 16) * 4 + c / 64, c mod 64)%N.

(** [base64.b64encode]: three octets become four characters; a last group
    of one or two octets is completed with zero bits and padded. *)
Fixpoint b64encode (data : list byte) : list byte :=
  match data with
  | [] => []
  | [a] =>
      let '(s1, s2, _, _) := sextets (Byte.to_N a) 0 0 in
      [digit s1; digit s2; pad; pad]
  | [a; b] =>
      let '(s1, s2, s3, _) := sextets (Byte.to_N a) (Byte.to_N b) 0 in
      [digit s1; digit s2; digit s3; pad]
  | a :: b :: c :: rest =>
      let '(s1, s2, s3, s4) :=
        sextets (Byte.to_N a) (Byte.to_N b) (Byte.to_N c) in
      digit s1 :: digit s2 :: digit s3 :: digit s4 :: b64encode rest
  end.

(** The six-bit value of a character of the alphabet. *)
Fixpoint index_of (c : byte) (l : list byte) (i : N) : option N :=
  match l with
  | [] => None
  | x :: l' => if Byte.eqb x c then Some i else index_of c l' (i + 1)%N
  end.
Definition value (c : byte) : option N := index_of c alphabet 0%N.

(** The octets of four six-bit values. *)
Definition octets (s1 s2 s3 s4 : N) : N * N * N :=
  (s1 * 4 + s2 / 16, (s2 mod 16) * 16 + s3 / 4, (s3 mod 4) * 64 + s4)%N.

(** A strict decoder: groups of four characters, padding only in the last
    group. *)
Fixpoint b64decode (text : list byte) : option (list byte) :=
  match text with
  | [] => Some []
  | c1 :: c2 :: c3 :: c4 :: rest =>
      if Byte.eqb c4 pad then
        match rest with
        | [] =>
            if Byte.eqb c3 pad then
              s1 ← value c1; s2 ← value c2;
              let '(a, _, _) := octets s1 s2 0 0 in
              a' ← Byte.of_N a; Some [a']
            else
              s1 ← value c1; s2 ← value c2; s3 ← value c3;
              let '(a, b, _) := octets s1 s2 s3 0 in
              a' ← Byte.of_N a; b' ← Byte.of_N b; Some [a'; b']
        | _ :: _ => None
        end
      else
        s1 ← value c1; s2 ← value c2; s3 ← value c3; s4 ← value c4;
        let '(a, b, c) := octets s1 s2 s3 s4 in
        a' ← Byte.of_N a; b' ← Byte.of_N b; c' ← Byte.of_N c;
        tail ← b64decode rest;
        Some (a' :: b' :: c' :: tail)
  | _ => None
  end.

End Base64.

Module Utf8.

(** [lo <= b <= hi] *)
Definition between (lo hi : N) (b : byte) : bool :=
  ((lo <=? Byte.to_N b) && (Byte.to_N b <=? hi))%N.

(** A continuation byte, [10xxxxxx]. *)
Definition continuation (b : byte) : bool := between 128 191 b.

(** Well-formed UTF-8 (the byte sequences of the Unicode standard,
    table 3-7): no overlong form, no surrogate, nothing above U+10FFFF. *)
Fixpoint valid (bs : list byte) : bool :=
  match bs with
  | [] => true
  | b0 :: r0 =>
      if between 0 127 b0 then valid r0
      else
        match r0 with
        | [] => false
        | b1 :: r1 =>
            if between 194 223 b0 then continuation b1 && valid r1
            else
              match r1 with
              | [] => false
              | b2 :: r2 =>
                  if between 224 224 b0
                  then between 160 191 b1 && continuation b2 && valid r2
                  else if between 225 236 b0 || between 238 239 b0
                  then continuation b1 && continuation b2 && valid r2
                  else if between 237 237 b0
                  then between 128 159 b1 && continuation b2 && valid r2
                  else
                    match r2 with
                    | [] => false
                    | b3 :: r3 =>
                        if between 240 240 b0
                        then between 144 191 b1 && continuation b2
                             && continuation b3 && valid r3
                        else if between 241 243 b0
                        then continuation b1 && continuation b2
                             && continuation b3 && valid r3
                        else if between 244 244 b0
                        then between 128 143 b1 && continuation b2
                             && continuation b3 && valid r3
                        else false
                    end
              end
        end
  end.

(** [bs.decode('utf-8')]: the text with these bytes, or
    [UnicodeDecodeError] when they are not well-formed UTF-8. *)
Definition decode (bs : list byte) : result string :=
  if valid bs then Ok (string_of_list_byte bs)
  else Raise (Exn (OtherError "UnicodeDecodeError")
                "'utf-8' codec can't decode bytes").

End Utf8.

(** Lines 31-35. *)
Definition encode_image (uploaded_file : UploadedFile) : result string :=
  let bytes_data := getvalue uploaded_file in
  Utf8.decode (Base64.b64encode bytes_data).

(** ** Built-in operations of Python that [main] relies on *)

Module Utf8Text.

(** The characters of a text: a character starts at every byte that is not
    a continuation byte. *)
Fixpoint chars (s : string) : list string :=
  match s with
  | EmptyString => []
  | String c s' =>
      let tail := chars s' in
      match s' with
      | String c' _ =>
          if Utf8.continuation (byte_of_ascii c')
          then
            match tail with
            | chunk :: rest => String c chunk :: rest
            | [] => [String c EmptyString]
            end
          else String c EmptyString :: tail
      | EmptyString => [String c EmptyString]
      end
  end.

End Utf8Text.

Module PyOps.

(** The dictionary a [PDict] stands for; its items are listed in insertion
    order, one per key. *)
Definition items (kvs : list (string * pyval)) : gmap string pyval :=
  list_to_map kvs.

(** [key in v] for a [str] key. *)
Definition py_in (key : string) (v : pyval) : result bool :=
  match v with
  | PDict kvs =>
      Ok (match items kvs !! key with Some _ => true | None => false end)
  | PList l =>
      Ok (existsb (fun x => match x with
                            | PStr s => String.eqb s key
                            | _ => false
                            end) l)
  | PStr s => Ok (PyStr.contains key s)
  | _ =>
      Raise (Exn TypeError
               ("argument of type '" +:+ type_name v +:+ "' is not iterable"))
  end.

(** [v[key]] for a [str] key. *)
Definition getitem (v : pyval) (key : string) : result pyval :=
  match v with
  | PDict kvs =>
      match items kvs !! key with
      | Some x => Ok x
      | None => Raise (Exn (OtherError "KeyError") ("'" +:+ key +:+ "'"))
      end
  | PList _ =>
      Raise (Exn TypeError "list indices must be integers or slices, not str")
  | PStr _ =>
      Raise (Exn TypeError "string indices must be integers, not 'str'")
  | _ =>
      Raise (Exn TypeError
               ("'" +:+ type_name v +:+ "' object is not subscriptable"))
  end.

(** [v.get(key, dflt)]: only a [dict] has the method. *)
Definition get (v : pyval) (key : string) (dflt : pyval) : result pyval :=
  match v with
  | PDict kvs => Ok (default dflt (items kvs !! key))
  | _ =>
      Raise (Exn AttributeError
               ("'" +:+ type_name v +:+ "' object has no attribute 'get'"))
  end.

(** The strings of a list, or the [TypeError] of the first item that is not
    a [str]. *)
Fixpoint str_items (l : list pyval) (i : nat) : result (list string) :=
  match l with
  | [] => Ok []
  | PStr s :: l' => rest ← str_items l' (S i); Ok (s :: rest)
  | x :: _ =>
      Raise (Exn TypeError
               ("sequence item " +:+ pretty i +:+ ": expected str instance, "
                +:+ type_name x +:+ " found"))
  end.

Fixpoint join_strings (sep : string) (l : list string) : string :=
  match l with
  | [] => ""
  | [x] => x
  | x :: l' => x +:+ sep +:+ join_strings sep l'
  end.

(** [sep.join(v)]: the items of a list, the characters of a [str] or the
    keys of a [dict]; nothing else can be iterated. *)
Definition join (sep : string) (v : pyval) : result string :=
  match v with
  | PList l => strings ← str_items l 0; Ok (join_strings sep strings)
  | PStr s => Ok (join_strings sep (Utf8Text.chars s))
  | PDict kvs => Ok (join_strings sep (map fst kvs))
  | _ => Raise (Exn TypeError "can only join an iterable")
  end.

(** [round(num / den)] to the nearest integer, ties to even, for
    [num >= 0] and [den > 0]. *)
Definition round_half_even (num den : Z) : Z :=
  let q := num / den in
  let r := num mod den in
  if (den <? 2 * r) || ((2 * r =? den) && Z.odd q) then q + 1 else q.

Definition zero_pad (width : nat) (s : string) : string :=
  string_of_list_ascii (repeat "0"%char (width - String.length s)) +:+ s.

(** The digits of [q / 10^p] with [p] decimals. *)
Definition fixed_digits (p : nat) (q : Z) : string :=
  let scale := 10 ^ Z.of_nat p in
  pretty (q / scale)
  +:+ match p with
      | O => ""
      | S _ => "." +:+ zero_pad p (pretty (q mod scale))
      end.

(** [format(x, '.pf')] of a [float]: the exact binary value rounded to [p]
    decimals, ties to even. *)
Definition format_fixed (p : nat) (x : float) : string :=
  match Prim2SF x with
  | S754_nan => "nan"
  | S754_infinity s => (if s then "-" else "") +:+ "inf"
  | S754_zero s => (if s then "-" else "") +:+ fixed_digits p 0
  | S754_finite s m e =>
      let scale := 10 ^ Z.of_nat p in
      let q :=
        if 0 <=? e then Z.pos m * 2 ^ e * scale
        else round_half_even (Z.pos m * scale) (2 ^ (- e)) in
      (if s then "-" else "") +:+ fixed_digits p q
  end.

(** [format(x, '.pf')] of an [int] or a [float]; an [int] is converted to
    [float] first. *)
Definition fixed (p : nat) (x : pynum) : result string :=
  f ← PyNum.as_float x;
  Ok (format_fixed p f).

End PyOps.

(** ** The page *)

(** The calls [main] makes to the Streamlit library, in order. *)
Inductive st_call :=
| St_set_page_config (page_title layout : string)
| St_write (body : pyval)
| St_title (body : string)
| St_file_uploader (label : string) (type : list string)
| St_image (image : list byte) (caption : string)
| St_success (body : string)
| St_info (body : string)
| St_spinner_enter (text : string)
| St_spinner_exit
| St_subheader (body : string)
| St_error (body : string)
| St_text (body : string)
| St_code (body : pyval).

(** A piece of the page: the calls made so far, and the value reached or
    the exception that stopped it. *)
Definition ui (A : Type) : Type := (list st_call * result A)%type.

#[global] Instance ui_ret : MRet ui := fun A a => ([], Ok a).
#[global] Instance ui_bind : MBind ui := fun A B f m =>
  match m with
  | (l, Ok a) => let (l', r) := f a in ((l ++ l')%list, r)
  | (l, Raise e) => (l, Raise e)
  end.

(** A call to the library, and the evaluation of an expression. *)
Definition call (c : st_call) : ui unit := ([c], Ok tt).
Definition eval {A} (r : result A) : ui A := ([], r).

Section Main.

Import PyOps.

(** [str.lower], [str.capitalize] and the [str()] of a float, a list or a
    dictionary, of the Python runtime. *)
Variable str_lower : string -> string.
Variable str_capitalize : string -> string.
Variable py_repr : pyval -> string.

Variable prompt_text : string.
Variable service : Type.
Variable create : chat_request -> service -> result chat_completion * service.
Variable json_loads : string -> result pyval.

(** A value inside an f-string. *)
Definition format_value (v : pyval) : string :=
  match v with
  | PStr s => s
  | PNone => "None"
  | PBool true => "True"
  | PBool false => "False"
  | PInt z => pretty z
  | _ => py_repr v
  end.

(** [v.capitalize()]: only a [str] has the method. *)
Definition capitalize (v : pyval) : result string :=
  match v with
  | PStr s => Ok (str_capitalize s)
  | _ =>
      Raise (Exn AttributeError
               ("'" +:+ type_name v +:+ "' object has no attribute 'capitalize'"))
  end.

(** [st.write(f"...")] *)
Definition write (s : string) : ui unit := call (St_write (PStr s)).

(** Lines 160-163: the analysis failed. *)
Definition show_failure (ai_analysis_result : pyval) : ui unit :=
  e ← eval (getitem ai_analysis_result "error");
  call (St_error ("Analysis failed: " +:+ format_value e));;
  has_raw ← eval (py_in "raw_response" ai_analysis_result);
  if (has_raw : bool) then
    call (St_text "Raw AI Response (for debugging):");;
    raw ← eval (getitem ai_analysis_result "raw_response");
    call (St_code raw)
  else mret tt.

(** Lines 166-170: the five fields of the analysis. *)
Definition show_analysis (ai_analysis_result : pyval) : ui unit :=
  roof ← eval (get ai_analysis_result "roof_shape" (PStr "N/A"));
  write ("**Roof Shape:** " +:+ format_value roof);;
  obstacles ← eval (get ai_analysis_result "main_obstacles"
                        (PList [PStr "None"]));
  joined ← eval (join ", " obstacles);
  write ("**Main Obstacles:** " +:+ joined);;
  sunlight ← eval (get ai_analysis_result "sunlight_exposure" (PStr "N/A"));
  sunlight' ← eval (capitalize sunlight);
  write ("**Sunlight Exposure:** " +:+ sunlight');;
  area ← eval (get ai_analysis_result "usable_area_qualitative" (PStr "N/A"));
  area' ← eval (capitalize area);
  write ("**Usable Area (Qualitative):** " +:+ area');;
  overall ← eval (get ai_analysis_result "overall_assessment" (PStr "N/A"));
  write ("**Overall Assessment:** " +:+ format_value overall).

(** Line 174: the engine reads the analysis with [.get], which only a
    [dict] has. *)
Definition calculate (ai_analysis_result : pyval) : result NumericEstimate :=
  match ai_analysis_result with
  | PDict kvs => perform_simplified_calculations str_lower (items kvs)
  | _ =>
      Raise (Exn AttributeError
               ("'" +:+ type_name ai_analysis_result
                +:+ "' object has no attribute 'get'"))
  end.

(** Line 182: the payback period with one decimal when it is a number,
    else the value as it is. *)
Definition show_roi (roi : pyval) : ui unit :=
  match roi with
  | PInt z =>
      years ← eval (fixed 1 (NInt z));
      write ("- **Estimated ROI (Payback Period):** " +:+ years +:+ " years")
  | PBool b =>
      years ← eval (fixed 1 (NInt (if b then 1 else 0)));
      write ("- **Estimated ROI (Payback Period):** " +:+ years +:+ " years")
  | PFloat f =>
      years ← eval (fixed 1 (NFloat f));
      write ("- **Estimated ROI (Payback Period):** " +:+ years +:+ " years")
  | _ => call (St_write roi)
  end.

(** Lines 176-182: the seven estimates. *)
Definition show_estimates (calculations : NumericEstimate) : ui unit :=
  sq_ft ← eval (fixed 0 (NInt (estimated_usable_sq_ft calculations)));
  write ("- **Estimated Usable Roof Area:** " +:+ sq_ft +:+ " sq ft");;
  write ("- **Estimated Optimal Panel Count:** "
         +:+ pretty (estimated_panel_count calculations));;
  kw ← eval (PyNum.truediv (NInt (estimated_system_wattage calculations))
                           (NInt 1000));
  write ("- **Estimated System Size:** " +:+ format_fixed 2 kw +:+ " kW");;
  kwh ← eval (fixed 0 (estimated_yearly_kwh calculations));
  write ("- **Estimated Yearly Energy Production:** " +:+ kwh +:+ " kWh");;
  cost ← eval (fixed 2 (estimated_system_cost calculations));
  write ("- **Estimated System Cost:** ₹" +:+ cost);;
  savings ← eval (fixed 2 (estimated_yearly_savings calculations));
  write ("- **Estimated Yearly Savings:** ₹" +:+ savings);;
  show_roi (estimated_roi_years calculations).

(** Lines 185-191: the closing note. *)
Definition show_notes : ui unit :=
  write (String "010" "---");;
  write "**Important Note on Estimates:**";;
  write "These calculations are simplified and based on hypothetical averages and qualitative AI assessments. For precise figures, a real-world tool would require:";;
  write "- Exact roof dimensions and angles (from precise image processing or CAD data).";;
  write "- Detailed local solar irradiance data (from geographical APIs).";;
  write "- Real-time local electricity rates and incentive programs.";;
  write "- Specific solar panel models and up-to-date installation costs.".

(** Lines 157-191: what is shown for the value the client returned. *)
Definition show_result (ai_analysis_result : pyval) : ui unit :=
  call (St_subheader "AI-Powered Rooftop Analysis:");;
  failed ← eval (py_in "error" ai_analysis_result);
  if (failed : bool) then show_failure ai_analysis_result
  else
    show_analysis ai_analysis_result;;
    call (St_subheader "Simplified Solar Potential Estimates:");;
    calculations ← eval (calculate ai_analysis_result);
    show_estimates calculations;;
    show_notes.

(** Lines 140-145: the calls every run of the page starts with. *)
Definition page_header : list st_call :=
  [ St_set_page_config "Rooftop Solar Analysis" "wide";
    St_write (PStr "WattMonk Assignment - AI-Powered Rooftop Solar Analysis Tool");
    St_title "☀️ AI-Powered Rooftop Solar Analysis Tool";
    St_write (PStr "Upload a satellite image of a rooftop to assess its solar potential.");
    St_file_uploader "Choose a satellite image..." ["jpg"; "jpeg"; "png"] ].

(** Lines 148-150. *)
Definition upload_calls (uploaded_file : UploadedFile) : list st_call :=
  [ St_image (getvalue uploaded_file) "Uploaded Satellite Image.";
    St_success "Image uploaded successfully!";
    St_info "Initiating solar analysis..." ].

(** What a run of the page leaves behind: whether it ended normally, the
    state of the service, and the calls made to the library. *)
Record main_run := {
  main_outcome : result unit;
  main_service : service;
  main_calls : list st_call
}.

(** Lines 139-191.  [uploaded_file] is what [st.file_uploader] returned. *)
Definition main (uploaded_file : option UploadedFile) (s : service) : main_run :=
  match uploaded_file with
  | None =>
      {| main_outcome := Ok tt; main_service := s; main_calls := page_header |}
  | Some f =>
      match encode_image f with
      | Raise e =>
          {| main_outcome := Raise e;
             main_service := s;
             main_calls := (page_header ++ upload_calls f)%list |}
      | Ok image_base64 =>
          let run :=
            get_roof_analysis_from_ai prompt_text service create json_loads
              image_base64 s in
          let (shown, ended) :=
            ai_analysis_result ←
              ((map St_error (shown_errors service run), outcome service run)
               : ui pyval);
            show_result ai_analysis_result in
          {| main_outcome := ended;
             main_service := service_after service run;
             main_calls :=
               (page_header ++ upload_calls f
                ++ [St_spinner_enter
                      "Analyzing rooftop with AI... This may take a moment."]
                ++ shown ++ [St_spinner_exit])%list |}
      end
  end.

End Main.

(** ** Auxiliary definitions for the statements *)

(** The text a field contributes before lowercasing: the stored string, or
    the default ['N/A'] when the key is absent.  A value that is not a
    string contributes none. *)
Definition field_text (d : gmap string pyval) (key : string) : option string :=
  match d !! key with
  | None => Some "N/A"
  | Some (PStr s) => Some s
  | Some _ => None
  end.

(** A key of the record is usable by the engine when it is absent or holds
    text. *)
Definition text_or_absent (d : gmap string pyval) (key : string) : Prop :=
  d !! key = None \/ exists t, d !! key = Some (PStr t).

(** The arithmetic that follows the two lookups (lines 95-137), as a
    function of the looked-up area and factor. *)
Definition estimate_from (sq_ft : Z) (production_factor : float)
  : result NumericEstimate :=
  count ← panel_count sq_ft;
  let wattage := count * PANEL_WATTAGE in
  kwh ← yearly_kwh wattage production_factor;
  cost ← system_cost wattage;
  savings ← PyNum.mul kwh (NFloat AVG_ELECTRICITY_RATE_PER_KWH);
  roi ← roi_years cost savings;
  Ok {| estimated_usable_sq_ft := sq_ft;
        estimated_panel_count := count;
        estimated_system_wattage := wattage;
        estimated_yearly_kwh := kwh;
        estimated_system_cost := cost;
        estimated_yearly_savings := savings;
        estimated_roi_years := roi |}.

(** The cost as the specification simplifies it: [wattage * 70.00]. *)
Definition system_cost_simplified (estimated_system_wattage : Z) : result pynum :=
  PyNum.mul (NInt estimated_system_wattage) (NFloat PANEL_COST_PER_WATT).

(** Sample analysis records. *)
Definition large_excellent : gmap string pyval :=
  {[ "roof_shape" := PStr "rectangular";
     "main_obstacles" := PList [PStr "chimney"; PStr "vent"];
     "sunlight_exposure" := PStr "Excellent";
     "usable_area_qualitative" := PStr "Large";
     "overall_assessment" := PStr "Well suited." ]}.

Definition large_excellent_other_notes : gmap string pyval :=
  {[ "roof_shape" := PStr "L-shaped";
     "main_obstacles" := PList [];
     "sunlight_exposure" := PStr "Excellent";
     "usable_area_qualitative" := PStr "Large" ]}.

Definition small_poor : gmap string pyval :=
  {[ "sunlight_exposure" := PStr "poor - significant shading";
     "usable_area_qualitative" := PStr "small" ]}.

Definition unknown_good : gmap string pyval :=
  {[ "sunlight_exposure" := PStr "good";
     "usable_area_qualitative" := PStr "unknown" ]}.

(** A record without area, whose sunlight exposure names no keyword. *)
Definition cloudy_without_area : gmap string pyval :=
  {[ "roof_shape" := PStr "complex";
     "sunlight_exposure" := PStr "Cloudy most of the day" ]}.

Definition null_area : gmap string pyval :=
  {[ "roof_shape" := PStr "complex";
     "sunlight_exposure" := PStr "good";
     "usable_area_qualitative" := PNone ]}.

(** A service that counts the calls made to it and answers each with the
    same result. *)
Definition counting_service (answer : result chat_completion)
  : chat_request -> nat -> result chat_completion * nat :=
  fun _ calls => (answer, S calls).

(** A response with a single choice. *)
Definition single_choice (c : option string) : chat_completion :=
  {| choices := [ {| message := {| content := c |} |} ] |}.

(** A parser that accepts one text only and rejects every other with the
    given description. *)
Definition only_parses (good : string) (v : pyval) (why : string)
  : string -> result pyval :=
  fun text => if String.eqb text good then Ok v else Raise (Exn JSONDecodeError why).

(** The parser of the sample runs: only the text of an empty object is
    JSON. *)
Definition sample_loads : string -> result pyval :=
  only_parses "{}" (PDict []) "Expecting value: line 1 column 1 (char 0)".

(** A run of the client against the counting service, from the state in
    which no call has been made. *)
Definition sample_run (answer : result chat_completion) : client_run nat :=
  get_roof_analysis_from_ai "Analyze this satellite image." nat
    (counting_service answer) sample_loads "aGVsbG8=" 0%nat.

(** Capitalisation of ASCII text: the first character in upper case, the
    others in lower case.  On such text this is [str.capitalize]. *)
Definition upper_ascii (c : ascii) : ascii :=
  let n := N_of_ascii c in
  if ((97 <=? n) && (n <=? 122))%N then ascii_of_N (n - 32) else c.

Definition ascii_capitalize (s : string) : string :=
  match s with
  | EmptyString => EmptyString
  | String c s' => String (upper_ascii c) (PyStr.ascii_lower s')
  end.

(** A stand-in for the [str()] of floats, lists and dictionaries in the
    sample runs. *)
Definition sample_repr (v : pyval) : string := "<" +:+ type_name v +:+ ">".

(** A run of the page against the counting service and the sample
    parser. *)
Definition sample_main (answer : result chat_completion)
  (parser : string -> result pyval) (uploaded_file : option UploadedFile)
  : main_run nat :=
  main PyStr.ascii_lower ascii_capitalize sample_repr
    "Analyze this satellite image." nat (counting_service answer) parser
    uploaded_file 0%nat.

(** What [', '.join] accepts as [main_obstacles]: nothing (the default is
    used), a list of strings, a string or a dictionary. *)
Definition joinable (v : option pyval) : Prop :=
  match v with
  | None => True
  | Some (PList l) => Forall (fun x => exists s, x = PStr s) l
  | Some (PStr _) => True
  | Some (PDict _) => True
  | Some _ => False
  end.

(** The analysis can be displayed and estimated: its obstacles can be
    joined and the two fields the engine reads are absent or text. *)
Definition displayable (kvs : list (string * pyval)) : Prop :=
  joinable (PyOps.items kvs !! "main_obstacles") /\
  text_or_absent (PyOps.items kvs) "sunlight_exposure" /\
  text_or_absent (PyOps.items kvs) "usable_area_qualitative".

(** The payback period the page shows for a production factor, in years
    with one decimal. *)
Definition payback_shown (production_factor : float) : string :=
  if (production_factor =? 1.2)%float then "6410.3"
  else if (production_factor =? 0.8)%float then "9615.4"
  else if (production_factor =? 0.5)%float then "15384.6"
  else "7692.3".

(** The estimate of a roof without usable area. *)
Definition empty_estimate : NumericEstimate :=
  {| estimated_usable_sq_ft := 0;
     estimated_panel_count := 0;
     estimated_system_wattage := 0;
     estimated_yearly_kwh := NInt 0;
     estimated_system_cost := NInt 0;
     estimated_yearly_savings := NFloat 0%float;
     estimated_roi_years := ROI_NOT_APPLICABLE |}.

(** An uploaded file of four bytes, and its base64 text. *)
Definition sample_file : UploadedFile :=
  {| file_name := "roof.png"; getvalue := [x89; x50; x4e; x47] |}.
Definition sample_image_base64 : string := "iVBORw==".


(** A reply of the model, and a parser that reads it. *)
Definition sample_analysis : list (string * pyval) :=
  [ ("roof_shape", PStr "rectangular");
    ("main_obstacles", PList [PStr "chimney"; PStr "vent"]);
    ("sunlight_exposure", PStr "excellent");
    ("usable_area_qualitative", PStr "large");
    ("overall_assessment", PStr "Well suited.") ].

Definition analysis_loads : string -> result pyval :=
  only_parses "{analysis}" (PDict sample_analysis)
    "Expecting value: line 1 column 1 (char 0)".

(** ** Substring search *)

Module PyStrFacts.

Import PyStr.

Lemma startswith_app (p post : string) : startswith p (p +:+ post) = true.
Proof.
  induction p as [|a p IH]; simpl; [reflexivity|].
  rewrite Ascii.eqb_refl. exact IH.
Qed.

Lemma startswith_inv (p s : string) :
  startswith p s = true -> exists post, s = p +:+ post.
Proof.
  revert s. induction p as [|a p IH]; intros s H.
  - exists s. reflexivity.
  - destruct s as [|b s]; simpl in H; [discriminate|].
    apply andb_true_iff in H as [Hab Hrest].
    apply Ascii.eqb_eq in Hab. subst b.
    destruct (IH _ Hrest) as [post ->].
    exists post. reflexivity.
Qed.

Lemma contains_cons (needle : string) (c : ascii) (hay : string) :
  contains needle (String c hay)
  = startswith needle (String c hay) || contains needle hay.
Proof. reflexivity. Qed.

Lemma contains_here (needle hay : string) :
  startswith needle hay = true -> contains needle hay = true.
Proof. intros H. destruct hay; simpl; rewrite H; reflexivity. Qed.

(** [in] finds exactly the occurrences: the search returns [True] if and
    only if the text splits around the needle. *)
Lemma contains_spec (needle hay : string) :
  contains needle hay = true <-> Substring needle hay.
Proof.
  split.
  - induction hay as [|c hay IH]; intros H.
    + simpl in H. rewrite orb_false_r in H.
      destruct (startswith_inv _ _ H) as [post E].
      exists "", post. exact E.
    + rewrite contains_cons in H. apply orb_true_iff in H as [H|H].
      * destruct (startswith_inv _ _ H) as [post E].
        exists "", post. exact E.
      * destruct (IH H) as (pre & post & ->).
        exists (String c pre), post. reflexivity.
  - intros (pre & post & ->).
    induction pre as [|c pre IH].
    + change ("" +:+ needle +:+ post) with (needle +:+ post).
      apply contains_here, startswith_app.
    + change (String c pre +:+ needle +:+ post)
        with (String c (pre +:+ needle +:+ post)).
      rewrite contains_cons, IH. apply orb_true_r.
Qed.

Lemma contains_false (needle hay : string) :
  contains needle hay = false <-> ~ Substring needle hay.
Proof.
  rewrite <- contains_spec. destruct (contains needle hay); split; easy.
Qed.

End PyStrFacts.

(** ** Facts about the engine *)

Module EngineFacts.

Import PyStr PyNum.

Lemma area_lookup_cases t :
  area_lookup t = 600 \/ area_lookup t = 300 \/
  area_lookup t = 100 \/ area_lookup t = 0.
Proof.
  unfold area_lookup.
  destruct (contains "large" t); [tauto|].
  destruct (contains "medium" t); [tauto|].
  destruct (contains "small" t); tauto.
Qed.

Lemma production_factor_cases t :
  production_factor_lookup t = 1.2%float \/
  production_factor_lookup t = 0.8%float \/
  production_factor_lookup t = 0.5%float \/
  production_factor_lookup t = 1.0%float.
Proof.
  unfold production_factor_lookup.
  destruct (contains "excellent" t); [tauto|].
  destruct (contains "moderate" t); [tauto|].
  destruct (contains "poor" t || contains "significant shading" t); tauto.
Qed.

Lemma text_or_absent_field_text d key :
  text_or_absent d key <-> exists t, field_text d key = Some t.
Proof.
  unfold text_or_absent, field_text. split.
  - intros [->|[t ->]]; eauto.
  - intros [t H]. destruct (d !! key) as [[]|]; try discriminate; eauto.
Qed.

(** Every step of the pipeline succeeds on the sixteen pairs the lookups
    can produce, and the record holds what each step computed. *)
Lemma estimate_from_steps t1 t2 :
  exists r,
    estimate_from (area_lookup t1) (production_factor_lookup t2) = Ok r /\
    estimated_usable_sq_ft r = area_lookup t1 /\
    panel_count (estimated_usable_sq_ft r) = Ok (estimated_panel_count r) /\
    estimated_system_wattage r = estimated_panel_count r * PANEL_WATTAGE /\
    yearly_kwh (estimated_system_wattage r) (production_factor_lookup t2)
    = Ok (estimated_yearly_kwh r) /\
    system_cost (estimated_system_wattage r) = Ok (estimated_system_cost r) /\
    mul (estimated_yearly_kwh r) (NFloat AVG_ELECTRICITY_RATE_PER_KWH)
    = Ok (estimated_yearly_savings r) /\
    roi_years (estimated_system_cost r) (estimated_yearly_savings r)
    = Ok (estimated_roi_years r).
Proof.
  destruct (area_lookup_cases t1) as [Ha|[Ha|[Ha|Ha]]];
  destruct (production_factor_cases t2) as [Hf|[Hf|[Hf|Hf]]];
  rewrite Ha, Hf;
  (eexists; split; [vm_compute; reflexivity|]);
  repeat split; vm_compute; reflexivity.
Qed.

End EngineFacts.

(** Case analysis on the area and the factor the two lookups return. *)
Ltac lookup_cases t1 t2 :=
  let Ha := fresh "Ha" in
  let Hf := fresh "Hf" in
  destruct (EngineFacts.area_lookup_cases t1) as [Ha|[Ha|[Ha|Ha]]];
  destruct (EngineFacts.production_factor_cases t2) as [Hf|[Hf|[Hf|Hf]]];
  rewrite ?Ha, ?Hf; clear Ha Hf.

(** Closes a goal about concrete numbers: by evaluation, or from a
    hypothesis that evaluates to an impossible equation. *)
Ltac by_evaluation :=
  intros;
  first
    [ vm_compute; reflexivity
    | match goal with
      | H : _ |- _ => vm_compute in H; first [discriminate H | now destruct H]
      end
    | lia ].

(** ** Properties of the estimation engine *)

Section EngineClaims.

Import PyStr PyNum PyStrFacts EngineFacts.

Variable str_lower : string -> string.

Lemma get_lower_text d key t :
  field_text d key = Some t -> get_lower str_lower d key = Ok (str_lower t).
Proof.
  unfold field_text, get_lower. intros H.
  destruct (d !! key) as [[]|]; simpl in *; congruence.
Qed.

Lemma get_lower_not_text d key :
  field_text d key = None ->
  exists v, d !! key = Some v /\
    get_lower str_lower d key
    = Raise (Exn AttributeError
               ("'" +:+ type_name v +:+ "' object has no attribute 'lower'")).
Proof.
  unfold field_text, get_lower. intros H.
  destruct (d !! key) as [v|]; [|discriminate].
  exists v. split; [reflexivity|].
  destruct v; simpl in *; congruence.
Qed.

Lemma perform_from_text d u s :
  field_text d "usable_area_qualitative" = Some u ->
  field_text d "sunlight_exposure" = Some s ->
  perform_simplified_calculations str_lower d
  = estimate_from (area_lookup (str_lower u))
                  (production_factor_lookup (str_lower s)).
Proof.
  intros Hu Hs. unfold perform_simplified_calculations.
  rewrite (get_lower_text _ _ _ Hu), (get_lower_text _ _ _ Hs).
  reflexivity.
Qed.

Lemma perform_steps d u s :
  field_text d "usable_area_qualitative" = Some u ->
  field_text d "sunlight_exposure" = Some s ->
  exists r,
    perform_simplified_calculations str_lower d = Ok r /\
    estimated_usable_sq_ft r = area_lookup (str_lower u) /\
    panel_count (estimated_usable_sq_ft r) = Ok (estimated_panel_count r) /\
    estimated_system_wattage r = estimated_panel_count r * PANEL_WATTAGE /\
    yearly_kwh (estimated_system_wattage r)
               (production_factor_lookup (str_lower s))
    = Ok (estimated_yearly_kwh r) /\
    system_cost (estimated_system_wattage r) = Ok (estimated_system_cost r) /\
    mul (estimated_yearly_kwh r) (NFloat AVG_ELECTRICITY_RATE_PER_KWH)
    = Ok (estimated_yearly_savings r) /\
    roi_years (estimated_system_cost r) (estimated_yearly_savings r)
    = Ok (estimated_roi_years r).
Proof.
  intros Hu Hs. rewrite (perform_from_text _ _ _ Hu Hs).
  apply estimate_from_steps.
Qed.

(** C1: on every analysis record whose [usable_area_qualitative] and
    [sunlight_exposure] are text, recognized or not, or are missing, the
    engine returns an estimate, and only that one: it never fails. *)
Theorem engine_total_on_analysis_records d :
  text_or_absent d "usable_area_qualitative" ->
  text_or_absent d "sunlight_exposure" ->
  exists r,
    perform_simplified_calculations str_lower d = Ok r /\
    forall r', perform_simplified_calculations str_lower d = Ok r' -> r' = r.
Proof.
  intros Hu Hs.
  apply text_or_absent_field_text in Hu as [u Hu].
  apply text_or_absent_field_text in Hs as [s Hs].
  destruct (perform_steps d u s Hu Hs) as (r & Hr & _).
  exists r. split; [exact Hr|].
  intros r' Hr'. congruence.
Qed.

(** The records the engine cannot read: when one of the two keys holds a
    value that is not a string, the [.lower()] of lines 81-82 raises
    [AttributeError], naming the type of that value. *)
Theorem engine_raises_on_non_text_field d :
  ~ text_or_absent d "usable_area_qualitative" \/
  ~ text_or_absent d "sunlight_exposure" ->
  exists v,
    (d !! "usable_area_qualitative" = Some v \/
     d !! "sunlight_exposure" = Some v) /\
    (forall t, v <> PStr t) /\
    perform_simplified_calculations str_lower d
    = Raise (Exn AttributeError
               ("'" +:+ type_name v +:+ "' object has no attribute 'lower'")).
Proof.
  intros H. unfold perform_simplified_calculations.
  destruct (field_text d "usable_area_qualitative") as [u|] eqn:Hu.
  - destruct (field_text d "sunlight_exposure") as [s|] eqn:Hs.
    + exfalso. destruct H as [H|H]; apply H;
        apply text_or_absent_field_text; eauto.
    + destruct (get_lower_not_text _ _ Hs) as (v & Hv & E).
      exists v. split; [right; exact Hv|]. split.
      * intros t ->. unfold field_text in Hs. rewrite Hv in Hs. discriminate.
      * rewrite (get_lower_text _ _ _ Hu), E. reflexivity.
  - destruct (get_lower_not_text _ _ Hu) as (v & Hv & E).
    exists v. split; [left; exact Hv|]. split.
    + intros t ->. unfold field_text in Hu. rewrite Hv in Hu. discriminate.
    + rewrite E. reflexivity.
Qed.

(** C2: the usable area is 600 when the lowercased text contains "large",
    else 300 when it contains "medium", else 100 when it contains "small",
    else 0; a missing field (lowercased default "n/a") and the empty
    string give 0. *)
Theorem area_lookup_precedence d u s :
  field_text d "usable_area_qualitative" = Some u ->
  field_text d "sunlight_exposure" = Some s ->
  exists r,
    perform_simplified_calculations str_lower d = Ok r /\
    let t := str_lower u in
    (Substring "large" t -> estimated_usable_sq_ft r = 600) /\
    (~ Substring "large" t -> Substring "medium" t ->
     estimated_usable_sq_ft r = 300) /\
    (~ Substring "large" t -> ~ Substring "medium" t -> Substring "small" t ->
     estimated_usable_sq_ft r = 100) /\
    (~ Substring "large" t -> ~ Substring "medium" t -> ~ Substring "small" t ->
     estimated_usable_sq_ft r = 0) /\
    (t = "n/a" \/ t = "" -> estimated_usable_sq_ft r = 0).
Proof.
  intros Hu Hs.
  destruct (perform_steps d u s Hu Hs) as (r & Hr & Ha & _).
  exists r. split; [exact Hr|]. cbv zeta. rewrite Ha. unfold area_lookup.
  rewrite <- !contains_false, <- !contains_spec.
  repeat split.
  - intros ->. reflexivity.
  - intros -> ->. reflexivity.
  - intros -> -> ->. reflexivity.
  - intros -> -> ->. reflexivity.
  - intros [->| ->]; reflexivity.
Qed.

(** C3: the production factor the energy is computed with is 1.2 when the
    lowercased text contains "excellent", else 0.8 when it contains
    "moderate", else 0.5 when it contains "poor" or "significant shading",
    else 1.0; "good" and a missing field (lowercased default "n/a") give
    1.0. *)
Theorem production_factor_precedence d u s :
  field_text d "usable_area_qualitative" = Some u ->
  field_text d "sunlight_exposure" = Some s ->
  exists r f,
    perform_simplified_calculations str_lower d = Ok r /\
    yearly_kwh (estimated_system_wattage r) f = Ok (estimated_yearly_kwh r) /\
    f = production_factor_lookup (str_lower s) /\
    let t := str_lower s in
    (Substring "excellent" t -> f = 1.2%float) /\
    (~ Substring "excellent" t -> Substring "moderate" t -> f = 0.8%float) /\
    (~ Substring "excellent" t -> ~ Substring "moderate" t ->
     Substring "poor" t \/ Substring "significant shading" t ->
     f = 0.5%float) /\
    (~ Substring "excellent" t -> ~ Substring "moderate" t ->
     ~ Substring "poor" t -> ~ Substring "significant shading" t ->
     f = 1.0%float) /\
    (t = "good" \/ t = "n/a" -> f = 1.0%float).
Proof.
  intros Hu Hs.
  destruct (perform_steps d u s Hu Hs) as (r & Hr & _ & _ & _ & Hk & _).
  exists r, (production_factor_lookup (str_lower s)).
  split; [exact Hr|]. split; [exact Hk|]. split; [reflexivity|]. cbv zeta.
  unfold production_factor_lookup.
  rewrite <- !contains_false, <- !contains_spec.
  repeat split.
  - intros ->. reflexivity.
  - intros -> ->. reflexivity.
  - intros -> -> [->| ->]; [reflexivity|].
    rewrite orb_true_r. reflexivity.
  - intros -> -> -> ->. reflexivity.
  - intros [->| ->]; reflexivity.
Qed.

(** C4: the panel count is the floor of area / 18 for every area the
    lookup produces (an exact integer quotient, although the code divides
    in floating point), and it is 0 when the area is 0. *)
Theorem panel_count_is_floor d u s :
  field_text d "usable_area_qualitative" = Some u ->
  field_text d "sunlight_exposure" = Some s ->
  exists r,
    perform_simplified_calculations str_lower d = Ok r /\
    0 <= estimated_usable_sq_ft r /\
    estimated_panel_count r = estimated_usable_sq_ft r / 18 /\
    (estimated_usable_sq_ft r = 0 -> estimated_panel_count r = 0).
Proof.
  intros Hu Hs. rewrite (perform_from_text _ _ _ Hu Hs).
  lookup_cases (str_lower u) (str_lower s);
    (eexists; split; [vm_compute; reflexivity|]);
    repeat split; by_evaluation.
Qed.

(** C5: the system wattage is the panel count times 400, in exact integer
    arithmetic. *)
Theorem wattage_is_count_times_400 d u s :
  field_text d "usable_area_qualitative" = Some u ->
  field_text d "sunlight_exposure" = Some s ->
  exists r,
    perform_simplified_calculations str_lower d = Ok r /\
    estimated_system_wattage r = estimated_panel_count r * 400.
Proof.
  intros Hu Hs.
  destruct (perform_steps d u s Hu Hs) as (r & Hr & _ & _ & Hw & _).
  exists r. split; [exact Hr | exact Hw].
Qed.

(** C6: for every wattage the engine produces, the cost it computes,
    [(wattage / 1000) * 70.00 * 1000] (the [int] 0 at wattage 0), is as a
    binary64 number identical to the simplified [wattage * 70.00]; at a
    positive wattage the two are the same [float] object value. *)
Theorem system_cost_equals_simplified d u s :
  field_text d "usable_area_qualitative" = Some u ->
  field_text d "sunlight_exposure" = Some s ->
  exists r c,
    perform_simplified_calculations str_lower d = Ok r /\
    as_float (estimated_system_cost r) = Ok c /\
    (x ← system_cost_simplified (estimated_system_wattage r); as_float x)
    = Ok c /\
    (0 < estimated_system_wattage r ->
     system_cost_simplified (estimated_system_wattage r)
     = Ok (estimated_system_cost r)) /\
    (estimated_system_wattage r = 0 -> estimated_system_cost r = NInt 0).
Proof.
  intros Hu Hs. rewrite (perform_from_text _ _ _ Hu Hs).
  lookup_cases (str_lower u) (str_lower s);
    (do 2 eexists; split; [vm_compute; reflexivity|]);
    (split; [vm_compute; reflexivity|]);
    repeat split; by_evaluation.
Qed.

(** C7: the yearly energy is zero exactly when the wattage is zero;
    otherwise it is [wattage * 1.4 * factor / 1000] in binary64; and
    between any two inputs it does not decrease when neither the wattage
    nor the factor decreases, and strictly increases with the wattage, and
    with the factor at a positive wattage. *)
Theorem yearly_kwh_formula_and_monotonicity d1 u1 s1 d2 u2 s2 :
  field_text d1 "usable_area_qualitative" = Some u1 ->
  field_text d1 "sunlight_exposure" = Some s1 ->
  field_text d2 "usable_area_qualitative" = Some u2 ->
  field_text d2 "sunlight_exposure" = Some s2 ->
  let f1 := production_factor_lookup (str_lower s1) in
  let f2 := production_factor_lookup (str_lower s2) in
  exists r1 r2 k1 k2,
    perform_simplified_calculations str_lower d1 = Ok r1 /\ perform_simplified_calculations str_lower d2 = Ok r2 /\
    as_float (estimated_yearly_kwh r1) = Ok k1 /\
    as_float (estimated_yearly_kwh r2) = Ok k2 /\
    (is_zero (estimated_yearly_kwh r1) = true <->
     estimated_system_wattage r1 = 0) /\
    (estimated_system_wattage r1 <> 0 ->
     exists w,
       float_of_int (estimated_system_wattage r1) = Ok w /\
       estimated_yearly_kwh r1 = NFloat (w * 1.4 * f1 / 1000)%float) /\
    (estimated_system_wattage r1 <= estimated_system_wattage r2 ->
     (f1 <=? f2)%float = true -> (k1 <=? k2)%float = true) /\
    (estimated_system_wattage r1 < estimated_system_wattage r2 ->
     (f1 <=? f2)%float = true -> (k1 <? k2)%float = true) /\
    (0 < estimated_system_wattage r1 ->
     estimated_system_wattage r1 = estimated_system_wattage r2 ->
     (f1 <? f2)%float = true -> (k1 <? k2)%float = true).
Proof.
  intros Hu1 Hs1 Hu2 Hs2.
  rewrite (perform_from_text _ _ _ Hu1 Hs1), (perform_from_text _ _ _ Hu2 Hs2).
  cbv zeta. clear Hu1 Hs1 Hu2 Hs2.
  lookup_cases (str_lower u1) (str_lower s1);
    lookup_cases (str_lower u2) (str_lower s2);
    (do 4 eexists; do 4 (split; [vm_compute; reflexivity|]));
    (split; [split; by_evaluation|]);
    (split; [first [ intros _; eexists; split; vm_compute; reflexivity
                   | by_evaluation ]|]);
    repeat split; by_evaluation.
Qed.

(** C8: the payback period is the sentinel string exactly when the yearly
    savings are zero; otherwise it is the [float] cost / savings, which is
    positive and finite whenever the cost is positive. *)
Theorem roi_sentinel_iff_no_savings d u s :
  field_text d "usable_area_qualitative" = Some u ->
  field_text d "sunlight_exposure" = Some s ->
  exists r,
    perform_simplified_calculations str_lower d = Ok r /\
    (estimated_roi_years r = ROI_NOT_APPLICABLE <->
     is_zero (estimated_yearly_savings r) = true) /\
    (is_zero (estimated_yearly_savings r) = false ->
     exists c v,
       as_float (estimated_system_cost r) = Ok c /\
       estimated_yearly_savings r = NFloat v /\
       estimated_roi_years r = PFloat (c / v)%float /\
       (gt0 (estimated_system_cost r) = true ->
        (0 <? c / v)%float = true /\ is_finite (c / v)%float = true)).
Proof.
  intros Hu Hs. rewrite (perform_from_text _ _ _ Hu Hs). clear Hu Hs.
  lookup_cases (str_lower u) (str_lower s);
    (eexists; split; [vm_compute; reflexivity|]);
    (split; [split; by_evaluation|]);
    first [ by_evaluation
          | intros _; do 2 eexists; repeat split; vm_compute; reflexivity ].
Qed.

(** C9: two records that agree on [sunlight_exposure] and
    [usable_area_qualitative] get the same outcome, whatever their other
    keys hold. *)
Theorem informational_fields_do_not_matter (d1 d2 : gmap string pyval) :
  d1 !! "sunlight_exposure" = d2 !! "sunlight_exposure" ->
  d1 !! "usable_area_qualitative" = d2 !! "usable_area_qualitative" ->
  perform_simplified_calculations str_lower d1 = perform_simplified_calculations str_lower d2.
Proof.
  intros Hs Hu. unfold perform_simplified_calculations, get_lower.
  rewrite Hs, Hu. reflexivity.
Qed.

End EngineClaims.

(** ** Sample runs of the engine *)

Section EngineSamples.

Import PyStr PyNum PyStrFacts.

Lemma engine_total_on_analysis_records_witness :
  exists r,
    perform_simplified_calculations ascii_lower cloudy_without_area = Ok r.
Proof.
  destruct (engine_total_on_analysis_records ascii_lower cloudy_without_area)
    as (r & Hr & _).
  - left. reflexivity.
  - right. exists "Cloudy most of the day". reflexivity.
  - exists r. exact Hr.
Defined.

Lemma engine_raises_on_non_text_field_witness :
  exists v,
    (null_area !! "usable_area_qualitative" = Some v \/
     null_area !! "sunlight_exposure" = Some v) /\
    (forall t, v <> PStr t) /\
    perform_simplified_calculations ascii_lower null_area
    = Raise (Exn AttributeError
               ("'" +:+ type_name v +:+ "' object has no attribute 'lower'")).
Proof.
  apply (engine_raises_on_non_text_field ascii_lower null_area).
  left. intros [H|[t H]]; vm_compute in H; discriminate H.
Defined.

Lemma area_lookup_precedence_witness :
  exists r, perform_simplified_calculations ascii_lower large_excellent = Ok r /\ estimated_usable_sq_ft r = 600.
Proof.
  destruct (area_lookup_precedence ascii_lower large_excellent
              "Large" "Excellent" eq_refl eq_refl)
    as (r & Hr & Hlarge & _).
  exists r. split; [exact Hr|].
  apply Hlarge. exists "", "". reflexivity.
Defined.

Lemma production_factor_precedence_witness :
  exists r f,
    perform_simplified_calculations ascii_lower small_poor = Ok r /\
    yearly_kwh (estimated_system_wattage r) f = Ok (estimated_yearly_kwh r) /\
    f = 0.5%float.
Proof.
  destruct (production_factor_precedence ascii_lower small_poor
              "small" "poor - significant shading" eq_refl eq_refl)
    as (r & f & Hr & Hk & _ & _ & _ & Hpoor & _).
  exists r, f. split; [exact Hr|]. split; [exact Hk|].
  apply Hpoor.
  - apply contains_false. reflexivity.
  - apply contains_false. reflexivity.
  - left. exists "", " - significant shading". reflexivity.
Defined.

Lemma panel_count_is_floor_witness :
  exists r,
    perform_simplified_calculations ascii_lower large_excellent = Ok r /\
    0 <= estimated_usable_sq_ft r /\
    estimated_panel_count r = estimated_usable_sq_ft r / 18 /\
    (estimated_usable_sq_ft r = 0 -> estimated_panel_count r = 0).
Proof.
  apply (panel_count_is_floor ascii_lower large_excellent "Large" "Excellent");
    reflexivity.
Defined.

Lemma wattage_is_count_times_400_witness :
  exists r,
    perform_simplified_calculations ascii_lower small_poor = Ok r /\
    estimated_system_wattage r = estimated_panel_count r * 400.
Proof.
  apply (wattage_is_count_times_400 ascii_lower small_poor
           "small" "poor - significant shading");
    reflexivity.
Defined.

Lemma system_cost_equals_simplified_witness :
  exists r c,
    perform_simplified_calculations ascii_lower large_excellent = Ok r /\
    as_float (estimated_system_cost r) = Ok c /\
    (x ← system_cost_simplified (estimated_system_wattage r); as_float x)
    = Ok c.
Proof.
  destruct (system_cost_equals_simplified ascii_lower large_excellent
              "Large" "Excellent" eq_refl eq_refl)
    as (r & c & Hr & Hc & Hsimple & _).
  exists r, c. auto.
Defined.

Lemma yearly_kwh_formula_and_monotonicity_witness :
  exists r1 r2 k1 k2,
    perform_simplified_calculations ascii_lower small_poor = Ok r1 /\ perform_simplified_calculations ascii_lower large_excellent = Ok r2 /\
    as_float (estimated_yearly_kwh r1) = Ok k1 /\
    as_float (estimated_yearly_kwh r2) = Ok k2 /\
    (estimated_system_wattage r1 < estimated_system_wattage r2 ->
     (k1 <? k2)%float = true).
Proof.
  destruct (yearly_kwh_formula_and_monotonicity ascii_lower
              small_poor "small" "poor - significant shading"
              large_excellent "Large" "Excellent"
              eq_refl eq_refl eq_refl eq_refl)
    as (r1 & r2 & k1 & k2 & H1 & H2 & Hk1 & Hk2 & _ & _ & _ & Hlt & _).
  exists r1, r2, k1, k2. repeat split; try assumption.
  intros Hw. apply Hlt; [exact Hw | reflexivity].
Defined.

Lemma roi_sentinel_iff_no_savings_witness :
  exists r,
    perform_simplified_calculations ascii_lower unknown_good = Ok r /\
    (estimated_roi_years r = ROI_NOT_APPLICABLE <->
     is_zero (estimated_yearly_savings r) = true).
Proof.
  destruct (roi_sentinel_iff_no_savings ascii_lower unknown_good
              "unknown" "good" eq_refl eq_refl)
    as (r & Hr & Hiff & _).
  exists r. split; assumption.
Defined.

Lemma informational_fields_do_not_matter_witness :
  perform_simplified_calculations ascii_lower large_excellent = perform_simplified_calculations ascii_lower large_excellent_other_notes.
Proof.
  apply (informational_fields_do_not_matter ascii_lower);
    vm_compute; reflexivity.
Defined.

(** First match wins: a label naming two sizes resolves to the larger. *)
Example medium_large_is_large :
  area_lookup (ascii_lower "Medium-Large") = 600.
Proof. reflexivity. Qed.

(** The three worked examples of the specification, evaluated. *)
Example large_excellent_estimate :
  perform_simplified_calculations ascii_lower large_excellent
  = Ok {| estimated_usable_sq_ft := 600;
          estimated_panel_count := 33;
          estimated_system_wattage := 13200;
          estimated_yearly_kwh := NFloat 22.175999999999998%float;
          estimated_system_cost := NFloat 924000%float;
          estimated_yearly_savings := NFloat 144.14399999999998%float;
          estimated_roi_years := PFloat 6410.2564102564111%float |}.
Proof. vm_compute. reflexivity. Qed.

Example unknown_good_estimate :
  perform_simplified_calculations ascii_lower unknown_good
  = Ok {| estimated_usable_sq_ft := 0;
          estimated_panel_count := 0;
          estimated_system_wattage := 0;
          estimated_yearly_kwh := NInt 0;
          estimated_system_cost := NInt 0;
          estimated_yearly_savings := NFloat 0%float;
          estimated_roi_years := ROI_NOT_APPLICABLE |}.
Proof. vm_compute. reflexivity. Qed.

Example small_poor_estimate :
  perform_simplified_calculations ascii_lower small_poor
  = Ok {| estimated_usable_sq_ft := 100;
          estimated_panel_count := 5;
          estimated_system_wattage := 2000;
          estimated_yearly_kwh := NFloat 1.3999999999999999%float;
          estimated_system_cost := NFloat 140000%float;
          estimated_yearly_savings := NFloat 9.0999999999999996%float;
          estimated_roi_years := PFloat 15384.615384615385%float |}.
Proof. vm_compute. reflexivity. Qed.

(** Away from the wattages the engine produces, the scaled cost formula and
    the simplified one need not agree: at 5 W they differ in the last bit. *)
Example system_cost_differs_at_5 :
  system_cost 5 = Ok (NFloat 350.00000000000006%float) /\
  system_cost_simplified 5 = Ok (NFloat 350%float).
Proof. split; vm_compute; reflexivity. Qed.

(** The floating-point division and [math.floor] of line 96 compute the
    exact integer quotient on every area up to 5000 square feet. *)
Lemma panel_count_exact_below_5000 (a : Z) :
  0 <= a <= 5000 -> panel_count a = Ok (a / 18).
Proof.
  intros Ha.
  assert (Hall : forallb
            (fun x => match panel_count x with
                      | Ok n => n =? x / 18
                      | Raise _ => false
                      end) (seqZ 0 5001) = true)
    by (vm_compute; reflexivity).
  rewrite forallb_forall in Hall.
  specialize (Hall a).
  destruct (panel_count a) as [n|e].
  - f_equal. apply Z.eqb_eq, Hall.
    apply list_elem_of_In, elem_of_seqZ. lia.
  - discriminate Hall.
    apply list_elem_of_In, elem_of_seqZ. lia.
Qed.

Lemma panel_count_exact_below_5000_witness :
  panel_count 600 = Ok 33.
Proof. apply (panel_count_exact_below_5000 600). lia. Defined.

End EngineSamples.

(** ** Properties of the vision analysis client *)

Section ClientFacts.

Variable prompt_text : string.
Variable service : Type.
Variable create : chat_request -> service -> result chat_completion * service.
Variable json_loads : string -> result pyval.

(** The client calls [create] once, whatever happens, and has no retry
    loop of its own: the service is left in the state the first call put
    it in. *)
Lemma client_calls_once image_base64 s :
  service_after service (get_roof_analysis_from_ai prompt_text service create json_loads
     image_base64 s)
  = snd (create (build_request prompt_text image_base64) s).
Proof.
  unfold get_roof_analysis_from_ai.
  destruct (create (build_request prompt_text image_base64) s) as [called s']. simpl.
  destruct (try_block json_loads called) as [v|e]; [reflexivity|].
  destruct (is_JSONDecodeError e).
  - destruct (mbind _ _); reflexivity.
  - destruct (is_Exception e); reflexivity.
Qed.

(** Text that is not JSON: the client returns the error record with the
    parser's description and the raw text, and shows one message. *)
Lemma client_reports_malformed_json image_base64 s response s' text e :
  create (build_request prompt_text image_base64) s = (Ok response, s') ->
  message_content response = Ok (Some text) ->
  json_loads text = Raise e ->
  is_JSONDecodeError e = true ->
  get_roof_analysis_from_ai prompt_text service create json_loads image_base64 s
  = {| outcome :=
         Ok (PDict [("error", PStr ("JSON parsing error: " +:+ exn_str e));
                    ("raw_response", PStr text)]);
       service_after := s';
       shown_errors :=
         ["Failed to parse AI response as JSON: " +:+ exn_str e
          +:+ ". Raw response: " +:+ text] |}.
Proof.
  intros Hcall Hcontent Hparse Hjson.
  unfold get_roof_analysis_from_ai, try_block. rewrite Hcall. simpl.
  rewrite Hcontent. simpl. rewrite Hparse, Hjson. reflexivity.
Qed.

(** Any other exception of the [try] body that is an [Exception]: the
    client returns the error record with its description. *)
Lemma client_reports_other_failure image_base64 s e :
  try_block json_loads (fst (create (build_request prompt_text image_base64) s)) = Raise e ->
  is_JSONDecodeError e = false ->
  is_Exception e = true ->
  get_roof_analysis_from_ai prompt_text service create json_loads image_base64 s
  = {| outcome :=
         Ok (PDict [("error", PStr ("Error during AI analysis: " +:+ exn_str e))]);
       service_after := snd (create (build_request prompt_text image_base64) s);
       shown_errors := [] |}.
Proof.
  intros Hbody Hjson Hexn.
  unfold get_roof_analysis_from_ai.
  destruct (create (build_request prompt_text image_base64) s) as [called s']. simpl in *.
  rewrite Hbody, Hjson, Hexn. reflexivity.
Qed.

(** A parsed reply is returned as it is. *)
Lemma client_returns_parsed_reply image_base64 s response s' text v :
  create (build_request prompt_text image_base64) s = (Ok response, s') ->
  message_content response = Ok (Some text) ->
  json_loads text = Ok v ->
  get_roof_analysis_from_ai prompt_text service create json_loads image_base64 s
  = {| outcome := Ok v; service_after := s'; shown_errors := [] |}.
Proof.
  intros Hcall Hcontent Hparse.
  unfold get_roof_analysis_from_ai, try_block. rewrite Hcall. simpl.
  rewrite Hcontent. simpl. rewrite Hparse. reflexivity.
Qed.

(** Once the call has returned a response, no exception that is an
    [Exception] leaves the client. *)
Lemma client_catches_after_response image_base64 s response s' :
  create (build_request prompt_text image_base64) s = (Ok response, s') ->
  (forall e, try_block json_loads (Ok response) = Raise e ->
             is_Exception e = true) ->
  exists v, outcome service (get_roof_analysis_from_ai prompt_text service create json_loads
     image_base64 s) = Ok v.
Proof.
  intros Hcall Hexn.
  unfold get_roof_analysis_from_ai. rewrite Hcall.
  destruct (try_block json_loads (Ok response)) as [v|e] eqn:Hbody;
    [eexists; reflexivity|].
  specialize (Hexn e eq_refl).
  destruct (is_JSONDecodeError e) eqn:Hjson.
  - unfold try_block in Hbody. simpl in Hbody. simpl.
    destruct (message_content response) as [c|e'] eqn:Hc.
    + eexists; reflexivity.
    + simpl in Hbody. injection Hbody as ->.
      unfold message_content in Hc.
      destruct (choices response); simpl in Hc; [|discriminate].
      injection Hc as <-. discriminate Hjson.
  - rewrite Hexn. eexists; reflexivity.
Qed.

(** A [JSONDecodeError] raised by the call itself reaches the first
    handler before [response] is bound: reading [response] there raises
    [UnboundLocalError], which leaves the client. *)
Lemma client_unbound_response image_base64 s e s' :
  create (build_request prompt_text image_base64) s = (Raise e, s') ->
  is_JSONDecodeError e = true ->
  get_roof_analysis_from_ai prompt_text service create json_loads image_base64 s
  = {| outcome :=
         Raise (Exn UnboundLocalError
                  "cannot access local variable 'response' where it is not associated with a value");
       service_after := s';
       shown_errors := [] |}.
Proof.
  intros Hcall Hjson.
  unfold get_roof_analysis_from_ai, try_block. rewrite Hcall. simpl.
  rewrite Hjson. reflexivity.
Qed.

End ClientFacts.

Section ClientSamples.

(** C10, the failing run: the call itself raises [JSONDecodeError]; the
    handler of line 73 reads the unbound [response] and an
    [UnboundLocalError] leaves the client, where the claim promises an
    error record. *)
Theorem client_lets_unbound_local_escape :
  outcome nat
    (sample_run
       (Raise (Exn JSONDecodeError "Expecting value: line 1 column 1 (char 0)")))
  = Raise (Exn UnboundLocalError
             "cannot access local variable 'response' where it is not associated with a value").
Proof. vm_compute. reflexivity. Qed.

Lemma client_reports_malformed_json_witness :
  sample_run (Ok (single_choice (Some "Sorry, I cannot help.")))
  = {| outcome :=
         Ok (PDict [("error",
                     PStr "JSON parsing error: Expecting value: line 1 column 1 (char 0)");
                    ("raw_response", PStr "Sorry, I cannot help.")]);
       service_after := 1%nat;
       shown_errors :=
         ["Failed to parse AI response as JSON: Expecting value: line 1 column 1 (char 0). Raw response: Sorry, I cannot help."] |}.
Proof.
  exact (client_reports_malformed_json _ nat _ sample_loads _ 0%nat
           (single_choice (Some "Sorry, I cannot help.")) 1%nat
           "Sorry, I cannot help."
           (Exn JSONDecodeError "Expecting value: line 1 column 1 (char 0)")
           eq_refl eq_refl eq_refl eq_refl).
Defined.

Lemma client_reports_other_failure_witness :
  sample_run (Raise (Exn (OtherError "APIConnectionError") "Connection error."))
  = {| outcome :=
         Ok (PDict [("error", PStr "Error during AI analysis: Connection error.")]);
       service_after := 1%nat;
       shown_errors := [] |}.
Proof.
  exact (client_reports_other_failure _ nat
           (counting_service
              (Raise (Exn (OtherError "APIConnectionError") "Connection error.")))
           sample_loads _ 0%nat
           (Exn (OtherError "APIConnectionError") "Connection error.")
           eq_refl eq_refl eq_refl).
Defined.

Lemma client_returns_parsed_reply_witness :
  sample_run (Ok (single_choice (Some "{}")))
  = {| outcome := Ok (PDict []); service_after := 1%nat; shown_errors := [] |}.
Proof.
  exact (client_returns_parsed_reply _ nat _ sample_loads _ 0%nat
           (single_choice (Some "{}")) 1%nat "{}" (PDict [])
           eq_refl eq_refl eq_refl).
Defined.

Lemma client_catches_after_response_witness :
  exists v, outcome nat (sample_run (Ok (single_choice None))) = Ok v.
Proof.
  apply (client_catches_after_response _ _ _ _ _ _
           (single_choice None) 1%nat); [reflexivity|].
  intros e He. vm_compute in He. injection He as <-. reflexivity.
Defined.

Lemma client_unbound_response_witness :
  outcome nat
    (sample_run (Raise (Exn JSONDecodeError "Extra data: line 2 column 1 (char 3)")))
  = Raise (Exn UnboundLocalError
             "cannot access local variable 'response' where it is not associated with a value").
Proof.
  exact (f_equal (outcome nat)
           (client_unbound_response _ nat
              (counting_service
                 (Raise (Exn JSONDecodeError "Extra data: line 2 column 1 (char 3)")))
              sample_loads _ 0%nat
              (Exn JSONDecodeError "Extra data: line 2 column 1 (char 3)") 1%nat
              eq_refl eq_refl)).
Defined.

End ClientSamples.

(** ** Facts about the image encoder *)

Module Base64Facts.

Import Base64.

(** Induction over a list three elements at a time. *)
Lemma triples_ind {A} (P : list A -> Prop) :
  P [] ->
  (forall a, P [a]) ->
  (forall a b, P [a; b]) ->
  (forall a b c rest, P rest -> P (a :: b :: c :: rest)) ->
  forall l, P l.
Proof.
  intros H0 H1 H2 H3.
  fix IH 1.
  intros [|a [|b [|c rest]]]; [exact H0 | apply H1 | apply H2 | apply H3, IH].
Qed.

Lemma below_64 (n : N) : (n < 64)%N -> In n (map N.of_nat (seq 0 64)).
Proof.
  intros H. apply in_map_iff. exists (N.to_nat n). split; [lia|].
  apply in_seq. lia.
Qed.

Lemma value_digit (n : N) : (n < 64)%N -> value (digit n) = Some n.
Proof.
  intros H.
  assert (Hall : forallb
            (fun i => match value (digit i) with
                      | Some j => N.eqb i j
                      | None => false
                      end) (map N.of_nat (seq 0 64)) = true)
    by (vm_compute; reflexivity).
  rewrite forallb_forall in Hall. specialize (Hall n (below_64 n H)).
  destruct (value (digit n)) as [j|]; [|discriminate].
  apply N.eqb_eq in Hall. congruence.
Qed.

Lemma digit_not_pad (n : N) : (n < 64)%N -> Byte.eqb (digit n) pad = false.
Proof.
  intros H.
  assert (Hall : forallb (fun i => negb (Byte.eqb (digit i) pad))
                   (map N.of_nat (seq 0 64)) = true)
    by (vm_compute; reflexivity).
  rewrite forallb_forall in Hall. specialize (Hall n (below_64 n H)).
  destruct (Byte.eqb (digit n) pad); [discriminate | reflexivity].
Qed.

Lemma sextets_octets (a b c s1 s2 s3 s4 : N) :
  (a <= 255)%N -> (b <= 255)%N -> (c <= 255)%N ->
  sextets a b c = (s1, s2, s3, s4) ->
  (s1 < 64 /\ s2 < 64 /\ s3 < 64 /\ s4 < 64)%N /\
  octets s1 s2 s3 s4 = (a, b, c).
Proof.
  intros Ha Hb Hc E. unfold sextets in E.
  injection E as <- <- <- <-. unfold octets.
  split; [repeat split|repeat f_equal];
    zify; Z.to_euclidean_division_equations; lia.
Qed.

(** A padded group keeps the octets it was made from: the zero bits that
    complete it do not disturb them. *)
Lemma one_octet (a s1 s2 s3 s4 : N) :
  (a <= 255)%N ->
  sextets a 0 0 = (s1, s2, s3, s4) ->
  (s1 < 64 /\ s2 < 64)%N /\ exists y z, octets s1 s2 0 0 = (a, y, z).
Proof.
  intros Ha E. unfold sextets in E.
  injection E as <- <- <- <-. unfold octets.
  split; [split|do 2 eexists; repeat f_equal];
    zify; Z.to_euclidean_division_equations; lia.
Qed.

Lemma two_octets (a b s1 s2 s3 s4 : N) :
  (a <= 255)%N -> (b <= 255)%N ->
  sextets a b 0 = (s1, s2, s3, s4) ->
  (s1 < 64 /\ s2 < 64 /\ s3 < 64)%N /\ exists z, octets s1 s2 s3 0 = (a, b, z).
Proof.
  intros Ha Hb E. unfold sextets in E.
  injection E as <- <- <- <-. unfold octets.
  split; [repeat split|eexists; repeat f_equal];
    zify; Z.to_euclidean_division_equations; lia.
Qed.

(** Decoding undoes encoding. *)
Lemma b64decode_b64encode (data : list byte) :
  b64decode (b64encode data) = Some data.
Proof.
  induction data as [|a|a b|a b c rest IH] using triples_ind.
  - reflexivity.
  - cbn [b64encode].
    destruct (sextets (Byte.to_N a) 0 0) as [[[s1 s2] s3] s4] eqn:E.
    destruct (one_octet _ _ _ _ _ (Byte.to_N_bounded a) E)
      as [[H1 H2] (y & z & Ho)].
    cbn [b64decode]. replace (Byte.eqb pad pad) with true by reflexivity.
    rewrite (value_digit _ H1), (value_digit _ H2).
    cbn [mbind option_bind]. rewrite Ho.
    rewrite Byte.of_to_N. reflexivity.
  - cbn [b64encode].
    destruct (sextets (Byte.to_N a) (Byte.to_N b) 0) as [[[s1 s2] s3] s4] eqn:E.
    destruct (two_octets _ _ _ _ _ _ (Byte.to_N_bounded a)
                (Byte.to_N_bounded b) E) as [(H1 & H2 & H3) (z & Ho)].
    cbn [b64decode]. replace (Byte.eqb pad pad) with true by reflexivity.
    rewrite (digit_not_pad _ H3).
    rewrite (value_digit _ H1), (value_digit _ H2), (value_digit _ H3).
    cbn [mbind option_bind]. rewrite Ho.
    rewrite !Byte.of_to_N. reflexivity.
  - cbn [b64encode].
    destruct (sextets (Byte.to_N a) (Byte.to_N b) (Byte.to_N c))
      as [[[s1 s2] s3] s4] eqn:E.
    destruct (sextets_octets _ _ _ _ _ _ _ (Byte.to_N_bounded a)
                (Byte.to_N_bounded b) (Byte.to_N_bounded c) E)
      as [(H1 & H2 & H3 & H4) Ho].
    cbn [b64decode]. rewrite (digit_not_pad _ H4).
    rewrite (value_digit _ H1), (value_digit _ H2),
      (value_digit _ H3), (value_digit _ H4).
    cbn [mbind option_bind]. rewrite Ho.
    rewrite !Byte.of_to_N. cbn [mbind option_bind]. rewrite IH. reflexivity.
Qed.

Lemma digit_in_alphabet (n : N) : (n < 64)%N -> In (digit n) alphabet.
Proof.
  intros H. unfold digit. apply nth_In.
  change (length alphabet) with 64%nat. lia.
Qed.

(** The shape of an encoding: characters of the alphabet, then as many
    padding characters as octets are missing from the last group. *)
Lemma b64encode_shape (data : list byte) :
  exists body,
    b64encode data
    = (body ++ repeat pad ((3 - length data mod 3) mod 3)%nat)%list /\
    Forall (fun c => In c alphabet) body /\
    length (b64encode data) = (4 * ((length data + 2) / 3))%nat.
Proof.
  induction data as [|a|a b|a b c rest IH] using triples_ind.
  - exists []. split; [reflexivity | split; [constructor | reflexivity]].
  - cbn [b64encode].
    destruct (sextets (Byte.to_N a) 0 0) as [[[s1 s2] s3] s4] eqn:E.
    destruct (one_octet _ _ _ _ _ (Byte.to_N_bounded a) E) as [[H1 H2] _].
    exists [digit s1; digit s2].
    split; [reflexivity | split; [|reflexivity]].
    repeat (apply List.Forall_cons; [apply digit_in_alphabet; assumption|]).
    apply List.Forall_nil.
  - cbn [b64encode].
    destruct (sextets (Byte.to_N a) (Byte.to_N b) 0) as [[[s1 s2] s3] s4] eqn:E.
    destruct (two_octets _ _ _ _ _ _ (Byte.to_N_bounded a)
                (Byte.to_N_bounded b) E) as [(H1 & H2 & H3) _].
    exists [digit s1; digit s2; digit s3].
    split; [reflexivity | split; [|reflexivity]].
    repeat (apply List.Forall_cons; [apply digit_in_alphabet; assumption|]).
    apply List.Forall_nil.
  - cbn [b64encode].
    destruct (sextets (Byte.to_N a) (Byte.to_N b) (Byte.to_N c))
      as [[[s1 s2] s3] s4] eqn:E.
    destruct (sextets_octets _ _ _ _ _ _ _ (Byte.to_N_bounded a)
                (Byte.to_N_bounded b) (Byte.to_N_bounded c) E)
      as [(H1 & H2 & H3 & H4) _].
    destruct IH as (body & Hbody & Hall & Hlen).
    exists (digit s1 :: digit s2 :: digit s3 :: digit s4 :: body).
    split; [|split].
    + rewrite Hbody. cbn [length app].
      replace (S (S (S (length rest)))) with (length rest + 1 * 3)%nat by lia.
      rewrite Nat.Div0.mod_add. reflexivity.
    + repeat (apply List.Forall_cons; [apply digit_in_alphabet; assumption|]).
      exact Hall.
    + cbn [length]. rewrite Hlen.
      replace (S (S (S (length rest))) + 2)%nat
        with ((length rest + 2) + 1 * 3)%nat by lia.
      rewrite Nat.div_add by lia. lia.
Qed.

Lemma alphabet_is_ascii (c : byte) :
  In c (pad :: alphabet) -> Utf8.between 0 127 c = true.
Proof.
  assert (Hall : forallb (Utf8.between 0 127) (pad :: alphabet) = true)
    by (vm_compute; reflexivity).
  rewrite forallb_forall in Hall. apply Hall.
Qed.

Lemma ascii_is_valid_utf8 (bs : list byte) :
  Forall (fun c => Utf8.between 0 127 c = true) bs -> Utf8.valid bs = true.
Proof.
  induction 1 as [|c bs Hc _ IH]; [reflexivity|].
  cbn [Utf8.valid]. rewrite Hc. exact IH.
Qed.

Lemma b64encode_is_valid_utf8 (data : list byte) :
  Utf8.valid (b64encode data) = true.
Proof.
  apply ascii_is_valid_utf8.
  destruct (b64encode_shape data) as (body & -> & Hall & _).
  apply List.Forall_app. split.
  - eapply List.Forall_impl; [|exact Hall].
    intros c Hc. apply alphabet_is_ascii. right. exact Hc.
  - apply List.Forall_forall. intros c Hc. apply repeat_spec in Hc. subst c.
    reflexivity.
Qed.

End Base64Facts.

(** ** Properties of the image encoder *)

Section EncoderProperties.

Import Base64 Base64Facts.

(** [encode_image] never raises: what [b64encode] produces is ASCII, so the
    UTF-8 decoding of line 35 always succeeds.  The text is made of
    characters of the base64 alphabet followed by 0, 1 or 2 [=] (as many as
    octets are missing from the last group of three), and its length is
    [4 * ceil(n / 3)] for [n] bytes. *)
Theorem encode_image_shape (uploaded_file : UploadedFile) :
  exists body,
    let n := length (getvalue uploaded_file) in
    encode_image uploaded_file
    = Ok (string_of_list_byte
           (body ++ repeat pad ((3 - n mod 3) mod 3)%nat)%list) /\
    Forall (fun c => In c alphabet) body /\
    (length body + (3 - n mod 3) mod 3 = 4 * ((n + 2) / 3))%nat.
Proof.
  destruct (b64encode_shape (getvalue uploaded_file))
    as (body & Hbody & Hall & Hlen).
  exists body. cbv zeta. split; [|split].
  - unfold encode_image, Utf8.decode.
    rewrite b64encode_is_valid_utf8, Hbody. reflexivity.
  - exact Hall.
  - rewrite <- Hlen, Hbody, length_app, repeat_length. reflexivity.
Qed.

(** Two files with the same encoding hold the same bytes. *)
Theorem encode_image_injective (f1 f2 : UploadedFile) :
  encode_image f1 = encode_image f2 -> getvalue f1 = getvalue f2.
Proof.
  unfold encode_image, Utf8.decode.
  rewrite !b64encode_is_valid_utf8. intros H. injection H as H.
  apply (f_equal list_byte_of_string) in H.
  rewrite !list_byte_of_string_of_list_byte in H.
  apply (f_equal b64decode) in H.
  rewrite !b64decode_b64encode in H. congruence.
Qed.

Lemma encode_image_injective_witness :
  getvalue {| file_name := "roof.jpg"; getvalue := [x89; x50; x4e; x47] |}
  = getvalue {| file_name := "roof.png"; getvalue := [x89; x50; x4e; x47] |}.
Proof.
  apply encode_image_injective. vm_compute. reflexivity.
Defined.

End EncoderProperties.

(** ** Facts about the page *)

Module UiFacts.

Lemma snd_bind {A B} (m : ui A) (k : A -> ui B) :
  snd (m ≫= k) = (snd m ≫= fun a => snd (k a)).
Proof.
  destruct m as [l [a|e]]; [|reflexivity].
  change (snd (let (l', r) := k a in ((l ++ l')%list, r)) = snd (k a)).
  destruct (k a). reflexivity.
Qed.

Lemma fst_bind {A B} (m : ui A) (k : A -> ui B) :
  fst (m ≫= k)
  = (fst m ++ match snd m with Ok a => fst (k a) | Raise _ => [] end)%list.
Proof.
  destruct m as [l [a|e]].
  - change (fst (let (l', r) := k a in ((l ++ l')%list, r))
            = (l ++ fst (k a))%list).
    destruct (k a). reflexivity.
  - cbn. rewrite app_nil_r. reflexivity.
Qed.

Lemma snd_eval {A} (r : result A) : snd (eval r) = r.
Proof. reflexivity. Qed.

Lemma snd_call (c : st_call) : snd (call c) = Ok tt.
Proof. reflexivity. Qed.

Lemma bind_ok {A B} (a : A) (k : A -> result B) : (Ok a ≫= k) = k a.
Proof. reflexivity. Qed.

Lemma bind_raise {A B} (e : exn) (k : A -> result B) :
  (Raise e ≫= k) = Raise e.
Proof. reflexivity. Qed.

Lemma bind_inv {A B} (m : result A) (k : A -> result B) (b : B) :
  (m ≫= k) = Ok b -> exists a, m = Ok a /\ k a = Ok b.
Proof. destruct m as [a|e]; [eauto | discriminate]. Qed.


End UiFacts.

(** Reduces the outcome of a piece of the page to the outcome of the
    expressions it evaluates. *)
Ltac ui_outcome :=
  repeat (rewrite ?UiFacts.snd_bind, ?UiFacts.snd_eval, ?UiFacts.snd_call,
            ?UiFacts.bind_ok, ?UiFacts.bind_raise).

Module PyOpsFacts.

Import PyOps.

Lemma str_items_ok (l : list pyval) (i : nat) :
  (exists strings, str_items l i = Ok strings) <->
  Forall (fun x => exists s, x = PStr s) l.
Proof.
  revert i. induction l as [|x l IH]; intros i.
  - split; [constructor | eexists; reflexivity].
  - split.
    + intros [strings H]. destruct x; try discriminate H. cbn in H.
      destruct (str_items l (S i)) as [rest|e] eqn:E; [|discriminate].
      constructor; [eauto|]. apply (IH (S i)). eauto.
    + intros H. inversion H as [|? ? [s ->] Hl]; subst.
      apply (IH (S i)) in Hl as [rest Hrest].
      exists (s :: rest). cbn. rewrite Hrest. reflexivity.
Qed.


Lemma join_ok (sep : string) (v : pyval) :
  (exists s, join sep v = Ok s) <-> joinable (Some v).
Proof.
  destruct v as [|b|z|f|t|l|kvs]; cbn.
  - split; [intros [? H]; discriminate H | intros []].
  - split; [intros [? H]; discriminate H | intros []].
  - split; [intros [? H]; discriminate H | intros []].
  - split; [intros [? H]; discriminate H | intros []].
  - split; [trivial | eexists; reflexivity].
  - rewrite <- (str_items_ok l 0). split.
    + intros [s H]. destruct (str_items l 0); [eauto | discriminate].
    + intros [strings ->]. eexists; reflexivity.
  - split; [trivial | eexists; reflexivity].
Qed.


End PyOpsFacts.

Section PageFacts.

Import PyOps PyOpsFacts UiFacts.

Variable str_lower : string -> string.
Variable str_capitalize : string -> string.
Variable py_repr : pyval -> string.

Lemma capitalize_ok (v : pyval) :
  (exists s, capitalize str_capitalize v = Ok s) <-> exists t, v = PStr t.
Proof.
  destruct v; cbn; split; intros [x H]; try discriminate H; eauto.
Qed.


Lemma capitalize_default_ok (m : gmap string pyval) (key : string) :
  (exists s, capitalize str_capitalize (default (PStr "N/A") (m !! key)) = Ok s)
  <-> text_or_absent m key.
Proof.
  rewrite capitalize_ok. unfold text_or_absent.
  destruct (m !! key) as [v|]; cbn.
  - split; [intros [t ->]; eauto | intros [H|[t [= ->]]]; [discriminate|eauto]].
  - split; eauto.
Qed.

(** Whether the five lines of the analysis can be shown is decided by the
    joining of the obstacles and the two capitalisations. *)
Lemma show_analysis_outcome (kvs : list (string * pyval)) :
  snd (show_analysis str_capitalize py_repr (PDict kvs))
  = (join ", " (default (PList [PStr "None"]) (items kvs !! "main_obstacles"))
     ≫= fun _ =>
     capitalize str_capitalize
       (default (PStr "N/A") (items kvs !! "sunlight_exposure"))
     ≫= fun _ =>
     capitalize str_capitalize
       (default (PStr "N/A") (items kvs !! "usable_area_qualitative"))
     ≫= fun _ => Ok tt).
Proof.
  unfold show_analysis, write. ui_outcome. cbn [get]. ui_outcome.
  destruct (join _ _); [|reflexivity]. ui_outcome.
  destruct (capitalize _ _); [|reflexivity]. ui_outcome.
  destruct (capitalize _ _); [|reflexivity]. ui_outcome.
  reflexivity.
Qed.

Lemma show_failure_outcome (kvs : list (string * pyval)) (e : pyval) :
  items kvs !! "error" = Some e ->
  snd (show_failure py_repr (PDict kvs)) = Ok tt.
Proof.
  intros He. unfold show_failure. ui_outcome. cbn [getitem py_in].
  rewrite He. ui_outcome.
  destruct (items kvs !! "raw_response") as [raw|]; reflexivity.
Qed.

(** The estimates of the engine can always be formatted. *)
Lemma engine_result_shown (d : gmap string pyval) (u s : string)
  (r : NumericEstimate) :
  field_text d "usable_area_qualitative" = Some u ->
  field_text d "sunlight_exposure" = Some s ->
  perform_simplified_calculations str_lower d = Ok r ->
  snd (show_estimates r) = Ok tt.
Proof.
  intros Hu Hs. rewrite (perform_from_text _ _ _ _ Hu Hs). clear Hu Hs.
  lookup_cases (str_lower u) (str_lower s);
    intros Hr; vm_compute in Hr; injection Hr as <-; vm_compute; reflexivity.
Qed.

Lemma engine_result_lines (d : gmap string pyval) (u s : string)
  (r : NumericEstimate) :
  field_text d "usable_area_qualitative" = Some u ->
  field_text d "sunlight_exposure" = Some s ->
  perform_simplified_calculations str_lower d = Ok r ->
  length (fst (show_estimates r)) = 7%nat.
Proof.
  intros Hu Hs. rewrite (perform_from_text _ _ _ _ Hu Hs). clear Hu Hs.
  lookup_cases (str_lower u) (str_lower s);
    intros Hr; vm_compute in Hr; injection Hr as <-; vm_compute; reflexivity.
Qed.

Lemma show_analysis_lines (kvs : list (string * pyval)) :
  snd (show_analysis str_capitalize py_repr (PDict kvs)) = Ok tt ->
  length (fst (show_analysis str_capitalize py_repr (PDict kvs))) = 5%nat.
Proof.
  rewrite show_analysis_outcome. unfold show_analysis, get.
  cbn [mbind ui_bind eval write call].
  destruct (join _ _) as [t|e]; [|discriminate].
  cbn [mbind ui_bind eval write call].
  destruct (capitalize _ (default _ (_ !! "sunlight_exposure")))
    as [c1|e1]; [|discriminate].
  cbn [mbind ui_bind eval write call].
  destruct (capitalize _ (default _ (_ !! "usable_area_qualitative")))
    as [c2|e2]; [|discriminate].
  reflexivity.
Qed.

Lemma calculate_after_analysis (kvs : list (string * pyval)) :
  text_or_absent (items kvs) "sunlight_exposure" ->
  text_or_absent (items kvs) "usable_area_qualitative" ->
  exists r,
    calculate str_lower (PDict kvs) = Ok r /\ snd (show_estimates r) = Ok tt.
Proof.
  intros Hs Hu.
  apply EngineFacts.text_or_absent_field_text in Hs as [s Hs].
  apply EngineFacts.text_or_absent_field_text in Hu as [u Hu].
  destruct (perform_steps str_lower _ _ _ Hu Hs) as (r & Hr & _).
  exists r. split; [exact Hr|].
  exact (engine_result_shown _ _ _ _ Hu Hs Hr).
Qed.

Lemma show_analysis_ok (kvs : list (string * pyval)) :
  snd (show_analysis str_capitalize py_repr (PDict kvs)) = Ok tt <->
  displayable kvs.
Proof.
  rewrite show_analysis_outcome. unfold displayable.
  rewrite <- !capitalize_default_ok.
  assert (Hj : joinable (items kvs !! "main_obstacles") <->
               exists t, join ", " (default (PList [PStr "None"])
                                      (items kvs !! "main_obstacles")) = Ok t).
  { destruct (items kvs !! "main_obstacles") as [v|]; cbn [default].
    - symmetry. apply join_ok.
    - split; [intros _; eexists; reflexivity | intros _; exact I]. }
  rewrite Hj.
  destruct (join _ _) as [t|e]; ui_outcome.
  - destruct (capitalize _ (default _ (_ !! "sunlight_exposure")))
      as [c1|e1]; ui_outcome.
    + destruct (capitalize _ (default _ (_ !! "usable_area_qualitative")))
        as [c2|e2]; ui_outcome.
      * split; [eauto 10 | reflexivity].
      * split; [discriminate | intros (_ & _ & [? H]); discriminate H].
    + split; [discriminate | intros (_ & [? H] & _); discriminate H].
  - split; [discriminate | intros ([? H] & _); discriminate H].
Qed.


Lemma show_analysis_needs_dict (v : pyval) :
  snd (show_analysis str_capitalize py_repr v) = Ok tt ->
  exists kvs, v = PDict kvs.
Proof.
  destruct v as [|b|z|f|t|l|kvs]; [..|eauto];
    unfold show_analysis; ui_outcome; cbn [get]; ui_outcome; discriminate.
Qed.

(** Past the five lines of the analysis nothing raises: the engine returns
    an estimate for the value and the estimate can be formatted. *)
Lemma calculate_after_show_analysis (v : pyval) :
  snd (show_analysis str_capitalize py_repr v) = Ok tt ->
  exists r, calculate str_lower v = Ok r /\ snd (show_estimates r) = Ok tt.
Proof.
  intros H. destruct (show_analysis_needs_dict v H) as [kvs ->].
  apply show_analysis_ok in H as (_ & Hs & Hu).
  exact (calculate_after_analysis kvs Hs Hu).
Qed.

End PageFacts.

(** ** Properties of the page *)

Section PageClaims.

Import PyOps PyOpsFacts UiFacts.

Variable str_lower : string -> string.
Variable str_capitalize : string -> string.
Variable py_repr : pyval -> string.
Variable prompt_text : string.
Variable service : Type.
Variable create : chat_request -> service -> result chat_completion * service.
Variable json_loads : string -> result pyval.

Lemma show_result_dict_outcome (kvs : list (string * pyval)) :
  snd (show_result str_lower str_capitalize py_repr (PDict kvs))
  = match items kvs !! "error" with
    | Some _ => Ok tt
    | None =>
        snd (show_analysis str_capitalize py_repr (PDict kvs)) ≫= fun _ =>
        calculate str_lower (PDict kvs) ≫= fun calculations =>
        snd (show_estimates calculations)
    end.
Proof.
  unfold show_result. ui_outcome. cbn [py_in].
  destruct (items kvs !! "error") as [e|] eqn:He; ui_outcome.
  - exact (show_failure_outcome py_repr kvs e He).
  - destruct (snd (show_analysis _ _ _)) as [[]|e]; [|reflexivity].
    ui_outcome.
    destruct (calculate _ _) as [c|e]; [|reflexivity]. ui_outcome.
    destruct (snd (show_estimates c)) as [[]|e]; reflexivity.
Qed.

Lemma show_result_not_dict (v : pyval) :
  (forall kvs, v <> PDict kvs) ->
  exists e,
    snd (show_result str_lower str_capitalize py_repr v) = Raise e /\
    (exn_cls e = TypeError \/ exn_cls e = AttributeError).
Proof.
  intros Hv. unfold show_result, show_failure, show_analysis.
  destruct v as [|b|z|f|t|l|kvs]; ui_outcome; cbn [py_in]; ui_outcome.
  - eexists; split; [reflexivity | left; reflexivity].
  - eexists; split; [reflexivity | left; reflexivity].
  - eexists; split; [reflexivity | left; reflexivity].
  - eexists; split; [reflexivity | left; reflexivity].
  - destruct (PyStr.contains "error" t); ui_outcome; cbn [getitem get];
      ui_outcome; eexists; (split; [reflexivity|]); [left | right]; reflexivity.
  - destruct (existsb _ l); ui_outcome; cbn [getitem get];
      ui_outcome; eexists; (split; [reflexivity|]); [left | right]; reflexivity.
  - destruct (Hv kvs eq_refl).
Qed.

(** What the client returned is displayed to the end exactly when it is a
    dictionary that either has an ["error"] key or can be displayed: its
    obstacles can be joined and the fields [sunlight_exposure] and
    [usable_area_qualitative] are absent or strings.  The engine and the
    formatting of its estimates add no condition. *)
Theorem show_result_completes_iff (v : pyval) :
  snd (show_result str_lower str_capitalize py_repr v) = Ok tt <->
  exists kvs,
    v = PDict kvs /\ (is_Some (items kvs !! "error") \/ displayable kvs).
Proof.
  split.
  - intros H.
    assert (Hd : exists kvs, v = PDict kvs).
    { destruct v as [|b|z|f|t|l|kvs]; [..|eauto];
        (edestruct show_result_not_dict as (e & He & _);
         [|rewrite He in H; discriminate H]; intros kvs; discriminate). }
    destruct Hd as [kvs ->]. exists kvs. split; [reflexivity|].
    rewrite show_result_dict_outcome in H.
    destruct (items kvs !! "error") as [e|]; [left; eauto|]. right.
    apply (show_analysis_ok str_capitalize py_repr).
    destruct (snd (show_analysis _ _ _)) as [[]|e]; [reflexivity|].
    discriminate H.
  - intros (kvs & -> & H). rewrite show_result_dict_outcome.
    destruct (items kvs !! "error") as [e|]; [reflexivity|].
    destruct H as [[e He]|Hd]; [discriminate He|].
    rewrite (proj2 (show_analysis_ok str_capitalize py_repr kvs) Hd).
    ui_outcome. destruct Hd as (_ & Hs & Hu).
    destruct (calculate_after_analysis str_lower kvs Hs Hu) as (r & -> & Hr).
    ui_outcome. exact Hr.
Qed.


Lemma encode_image_ok (f : UploadedFile) :
  encode_image f = Ok (string_of_list_byte (Base64.b64encode (getvalue f))).
Proof.
  unfold encode_image, Utf8.decode.
  rewrite Base64Facts.b64encode_is_valid_utf8. reflexivity.
Qed.


(** A run with an uploaded file, in terms of the run of the client and of
    the display of what it returned. *)
Lemma main_with_upload (f : UploadedFile) (image_base64 : string) (s : service) :
  encode_image f = Ok image_base64 ->
  let run :=
    get_roof_analysis_from_ai prompt_text service create json_loads
      image_base64 s in
  main str_lower str_capitalize py_repr prompt_text service create json_loads
    (Some f) s
  = {| main_outcome :=
         outcome service run ≫= fun v =>
         snd (show_result str_lower str_capitalize py_repr v);
       main_service := service_after service run;
       main_calls :=
         (page_header ++ upload_calls f
          ++ [St_spinner_enter
                "Analyzing rooftop with AI... This may take a moment."]
          ++ (map St_error (shown_errors service run)
              ++ match outcome service run with
                 | Ok v => fst (show_result str_lower str_capitalize py_repr v)
                 | Raise _ => []
                 end)
          ++ [St_spinner_exit])%list |}.
Proof.
  intros Henc run. unfold main. rewrite Henc. fold run.
  destruct (mbind _ _) as [shown ended] eqn:E.
  pose proof (f_equal fst E) as E1. pose proof (f_equal snd E) as E2.
  rewrite fst_bind in E1. rewrite snd_bind in E2. cbn [fst snd] in E1, E2.
  rewrite <- E1, <- E2. reflexivity.
Qed.

Lemma show_result_failure_calls (kvs : list (string * pyval)) (e : pyval) :
  items kvs !! "error" = Some e ->
  fst (show_result str_lower str_capitalize py_repr (PDict kvs))
  = ([St_subheader "AI-Powered Rooftop Analysis:";
      St_error ("Analysis failed: " +:+ format_value py_repr e)]
     ++ match items kvs !! "raw_response" with
        | Some raw => [St_text "Raw AI Response (for debugging):"; St_code raw]
        | None => []
        end)%list.
Proof.
  intros He. unfold show_result, show_failure, py_in, getitem. rewrite He.
  destruct (items kvs !! "raw_response") as [raw|]; reflexivity.
Qed.


(** A run of the page ends normally exactly when no file was uploaded, or
    the client returned a dictionary that has an ["error"] key or can be
    displayed. *)
Theorem main_completes_iff (uploaded_file : option UploadedFile) (s : service) :
  main_outcome service
    (main str_lower str_capitalize py_repr prompt_text service create json_loads
       uploaded_file s) = Ok tt
  <->
  match uploaded_file with
  | None => True
  | Some f =>
      exists image_base64 kvs,
        encode_image f = Ok image_base64 /\
        outcome service
          (get_roof_analysis_from_ai prompt_text service create json_loads
             image_base64 s) = Ok (PDict kvs) /\
        (is_Some (items kvs !! "error") \/ displayable kvs)
  end.
Proof.
  destruct uploaded_file as [f|]; [|split; [trivial | reflexivity]].
  rewrite (main_with_upload f _ s (encode_image_ok f)). cbn [main_outcome].
  split.
  - intros H. apply bind_inv in H as (v & Hv & Hshow).
    apply show_result_completes_iff in Hshow as (kvs & -> & Hkvs).
    exists (string_of_list_byte (Base64.b64encode (getvalue f))), kvs.
    split; [apply encode_image_ok | split; assumption].
  - intros (image_base64 & kvs & Henc & Hrun & Hkvs).
    rewrite encode_image_ok in Henc. injection Henc as <-.
    rewrite Hrun. ui_outcome.
    apply show_result_completes_iff. eauto.
Qed.



(** The engine never fails inside the page.  Whenever a run gets past the
    five lines of the analysis (which capitalise the two fields the engine
    reads), the call of the engine at line 174 returns an estimate for the
    value the client returned, the estimate can be formatted, and the run
    ends normally. *)
Theorem main_engine_call_succeeds (f : UploadedFile) (image_base64 : string)
  (s : service) (v : pyval) :
  encode_image f = Ok image_base64 ->
  outcome service
    (get_roof_analysis_from_ai prompt_text service create json_loads
       image_base64 s) = Ok v ->
  py_in "error" v = Ok false ->
  snd (show_analysis str_capitalize py_repr v) = Ok tt ->
  exists calculations,
    calculate str_lower v = Ok calculations /\
    snd (show_estimates calculations) = Ok tt /\
    main_outcome service
      (main str_lower str_capitalize py_repr prompt_text service create
         json_loads (Some f) s) = Ok tt.
Proof.
  intros Henc Hrun Hin Ha.
  destruct (calculate_after_show_analysis str_lower _ _ v Ha) as (r & Hc & Hr).
  exists r. split; [exact Hc|]. split; [exact Hr|].
  rewrite (main_with_upload f _ s Henc). cbn [main_outcome].
  rewrite Hrun. ui_outcome. unfold show_result. ui_outcome.
  rewrite Hin. ui_outcome. rewrite Ha. ui_outcome. rewrite Hc. ui_outcome.
  rewrite Hr. reflexivity.
Qed.

(** No handler in the page: an exception that leaves the client ends the
    run, after the spinner is closed and with nothing displayed but the
    messages of the client. *)
Theorem main_stops_on_client_exception (f : UploadedFile)
  (image_base64 : string) (s : service) (e : exn) :
  encode_image f = Ok image_base64 ->
  let run :=
    get_roof_analysis_from_ai prompt_text service create json_loads
      image_base64 s in
  outcome service run = Raise e ->
  let page :=
    main str_lower str_capitalize py_repr prompt_text service create json_loads
      (Some f) s in
  main_outcome service page = Raise e /\
  main_calls service page
  = (page_header ++ upload_calls f
     ++ [St_spinner_enter "Analyzing rooftop with AI... This may take a moment."]
     ++ map St_error (shown_errors service run)
     ++ [St_spinner_exit])%list.
Proof.
  intros Henc run Hrun page. unfold page.
  rewrite (main_with_upload f _ s Henc). fold run.
  cbn [main_outcome main_calls]. rewrite Hrun. ui_outcome.
  rewrite app_nil_r. split; reflexivity.
Qed.

(** An analysis that has an ["error"] key is reported as a failure: the
    message, then the raw response when there is one, and no estimate;
    the run ends normally. *)
Theorem main_reports_failed_analysis (f : UploadedFile) (image_base64 : string)
  (s : service) (kvs : list (string * pyval)) (e : pyval) :
  encode_image f = Ok image_base64 ->
  let run :=
    get_roof_analysis_from_ai prompt_text service create json_loads
      image_base64 s in
  outcome service run = Ok (PDict kvs) ->
  items kvs !! "error" = Some e ->
  let page :=
    main str_lower str_capitalize py_repr prompt_text service create json_loads
      (Some f) s in
  main_outcome service page = Ok tt /\
  main_calls service page
  = (page_header ++ upload_calls f
     ++ [St_spinner_enter "Analyzing rooftop with AI... This may take a moment."]
     ++ map St_error (shown_errors service run)
     ++ [St_subheader "AI-Powered Rooftop Analysis:";
         St_error ("Analysis failed: " +:+ format_value py_repr e)]
     ++ match items kvs !! "raw_response" with
        | Some raw => [St_text "Raw AI Response (for debugging):"; St_code raw]
        | None => []
        end
     ++ [St_spinner_exit])%list.
Proof.
  intros Henc run Hrun He page. unfold page.
  rewrite (main_with_upload f _ s Henc). fold run.
  cbn [main_outcome main_calls]. rewrite Hrun. ui_outcome.
  split.
  - apply show_result_completes_iff. exists kvs. split; [reflexivity|].
    left. eauto.
  - rewrite (show_result_failure_calls kvs e He), <- !app_assoc.
    reflexivity.
Qed.

Lemma client_message_needs_error_key (image_base64 : string) (s : service)
  (kvs : list (string * pyval)) :
  outcome service
    (get_roof_analysis_from_ai prompt_text service create json_loads
       image_base64 s) = Ok (PDict kvs) ->
  items kvs !! "error" = None ->
  shown_errors service
    (get_roof_analysis_from_ai prompt_text service create json_loads
       image_base64 s) = [].
Proof.
  unfold get_roof_analysis_from_ai.
  destruct (create (build_request prompt_text image_base64) s) as [called s'].
  destruct (try_block json_loads called) as [v|e]; [reflexivity|].
  destruct (is_JSONDecodeError e).
  - destruct (mbind _ _) as [raw|e']; cbn; [|discriminate].
    intros [= <-] H. discriminate H.
  - destruct (is_Exception e); reflexivity.
Qed.

(** On an analysis without ["error"] key that can be displayed, the page
    shows no error: after the first heading come the five lines of the
    analysis, then the second heading, the seven lines with the estimates
    of the engine for this analysis, and the closing note. *)
Theorem main_shows_engine_estimates (f : UploadedFile) (image_base64 : string)
  (s : service) (kvs : list (string * pyval)) :
  encode_image f = Ok image_base64 ->
  outcome service
    (get_roof_analysis_from_ai prompt_text service create json_loads
       image_base64 s) = Ok (PDict kvs) ->
  items kvs !! "error" = None ->
  displayable kvs ->
  exists calculations analysis_lines estimate_lines,
    perform_simplified_calculations str_lower (items kvs) = Ok calculations /\
    show_analysis str_capitalize py_repr (PDict kvs) = (analysis_lines, Ok tt) /\
    show_estimates calculations = (estimate_lines, Ok tt) /\
    length analysis_lines = 5%nat /\
    length estimate_lines = 7%nat /\
    main_calls service
      (main str_lower str_capitalize py_repr prompt_text service create
         json_loads (Some f) s)
    = (page_header ++ upload_calls f
       ++ [St_spinner_enter "Analyzing rooftop with AI... This may take a moment.";
           St_subheader "AI-Powered Rooftop Analysis:"]
       ++ analysis_lines
       ++ [St_subheader "Simplified Solar Potential Estimates:"]
       ++ estimate_lines
       ++ fst show_notes
       ++ [St_spinner_exit])%list.
Proof.
  intros Henc Hrun He Hd.
  pose proof (proj2 (show_analysis_ok str_capitalize py_repr kvs) Hd) as Ha.
  pose proof (show_analysis_lines str_capitalize py_repr kvs Ha) as Hla.
  destruct Hd as (_ & Hs & Hu).
  apply EngineFacts.text_or_absent_field_text in Hs as [ts Hs].
  apply EngineFacts.text_or_absent_field_text in Hu as [tu Hu].
  destruct (perform_steps str_lower _ _ _ Hu Hs) as (r & Hr & _).
  pose proof (engine_result_shown str_lower _ _ _ _ Hu Hs Hr) as He1.
  pose proof (engine_result_lines str_lower _ _ _ _ Hu Hs Hr) as He2.
  destruct (show_analysis str_capitalize py_repr (PDict kvs))
    as [analysis_lines oa] eqn:Eqa.
  destruct (show_estimates r) as [estimate_lines oe] eqn:Eqe.
  cbn [fst snd] in *. subst oa oe.
  exists r, analysis_lines, estimate_lines.
  repeat (split; [first [assumption | reflexivity]|]).
  rewrite (main_with_upload f _ s Henc). cbn [main_calls].
  rewrite (client_message_needs_error_key _ _ _ Hrun He), Hrun.
  unfold show_result, calculate. cbn [py_in]. rewrite He.
  fold (items kvs). rewrite Eqa, Hr.
  cbn [mbind ui_bind call eval app map]. rewrite Eqe.
  destruct show_notes as [notes on]. cbn [mbind ui_bind fst app].
  rewrite <- ?app_assoc. cbn [app]. rewrite <- ?app_assoc. reflexivity.
Qed.

End PageClaims.

(** ** Further properties of the engine *)

Section EngineProperties.

Import PyStr PyNum PyStrFacts EngineFacts PyOps.

Variable str_lower : string -> string.

(** Every estimate stays within fixed bounds: the area is one of 0, 100,
    300 and 600, there are at most 33 panels and 13200 W, and the energy,
    the cost and the savings are numbers between 0 and 22.176 kWh, 924000
    and 144.15; a numeric payback period lies between 6410 and 15385
    years. *)
Theorem estimate_within_bounds d u s :
  field_text d "usable_area_qualitative" = Some u ->
  field_text d "sunlight_exposure" = Some s ->
  exists r k c v,
    perform_simplified_calculations str_lower d = Ok r /\
    In (estimated_usable_sq_ft r) [0; 100; 300; 600] /\
    0 <= estimated_panel_count r <= 33 /\
    0 <= estimated_system_wattage r <= 13200 /\
    as_float (estimated_yearly_kwh r) = Ok k /\
    as_float (estimated_system_cost r) = Ok c /\
    as_float (estimated_yearly_savings r) = Ok v /\
    ((0 <=? k) && (k <=? 22.176))%float = true /\
    ((0 <=? c) && (c <=? 924000))%float = true /\
    ((0 <=? v) && (v <=? 144.15))%float = true /\
    (forall y, estimated_roi_years r = PFloat y ->
               ((6410 <=? y) && (y <=? 15385))%float = true).
Proof.
  intros Hu Hs. rewrite (perform_from_text _ _ _ _ Hu Hs). clear Hu Hs.
  lookup_cases (str_lower u) (str_lower s);
    (do 4 eexists; split; [vm_compute; reflexivity|]);
    (split; [cbn; tauto|]);
    (split; [cbn; lia|]); (split; [cbn; lia|]);
    do 3 (split; [vm_compute; reflexivity|]);
    do 3 (split; [vm_compute; reflexivity|]);
    intros y Hy; first [discriminate Hy | injection Hy as <-; vm_compute; reflexivity].
Qed.

(** Without one of the three size keywords in the lowercased area text the
    estimate is empty, whatever the sunlight exposure: nothing is sized and
    the payback period is the sentinel. *)
Theorem no_size_keyword_gives_empty_estimate d u s :
  field_text d "usable_area_qualitative" = Some u ->
  field_text d "sunlight_exposure" = Some s ->
  ~ Substring "large" (str_lower u) ->
  ~ Substring "medium" (str_lower u) ->
  ~ Substring "small" (str_lower u) ->
  perform_simplified_calculations str_lower d = Ok empty_estimate.
Proof.
  intros Hu Hs Hl Hm Hsm. rewrite (perform_from_text _ _ _ _ Hu Hs).
  apply contains_false in Hl, Hm, Hsm.
  unfold area_lookup. rewrite Hl, Hm, Hsm.
  destruct (production_factor_cases (str_lower s)) as [Hf|[Hf|[Hf|Hf]]];
    rewrite Hf; vm_compute; reflexivity.
Qed.

(** The payback period the page shows depends on the sunlight exposure
    alone: whatever the area, if it is not zero, the line reads 6410.3,
    9615.4, 15384.6 or 7692.3 years for the factors 1.2, 0.8, 0.5 and 1.0
    (although the [float]s behind it differ in their last bits from one
    area to another); with no area the line is the sentinel text alone. *)
Theorem displayed_payback_depends_on_sunlight_only d u s :
  field_text d "usable_area_qualitative" = Some u ->
  field_text d "sunlight_exposure" = Some s ->
  exists r,
    perform_simplified_calculations str_lower d = Ok r /\
    show_roi (estimated_roi_years r)
    = if estimated_usable_sq_ft r =? 0
      then call (St_write ROI_NOT_APPLICABLE)
      else write ("- **Estimated ROI (Payback Period):** "
                  +:+ payback_shown (production_factor_lookup (str_lower s))
                  +:+ " years").
Proof.
  intros Hu Hs. rewrite (perform_from_text _ _ _ _ Hu Hs). clear Hu Hs.
  lookup_cases (str_lower u) (str_lower s);
    (eexists; split; [vm_compute; reflexivity|]);
    vm_compute; reflexivity.
Qed.

End EngineProperties.

(** The scaled cost formula of line 118 and [wattage * 70.00] give the same
    number for the wattage of every panel count up to 1000. *)
Theorem system_cost_equals_simplified_up_to_1000_panels (n : Z) :
  0 <= n <= 1000 ->
  (system_cost (n * PANEL_WATTAGE) ≫= PyNum.as_float)
  = (system_cost_simplified (n * PANEL_WATTAGE) ≫= PyNum.as_float).
Proof.
  intros Hn.
  assert (Hall : forallb
            (fun k =>
               match system_cost (k * PANEL_WATTAGE) ≫= PyNum.as_float,
                     system_cost_simplified (k * PANEL_WATTAGE) ≫= PyNum.as_float
               with
               | Ok a, Ok b =>
                   match Prim2SF a, Prim2SF b with
                   | S754_zero false, S754_zero false => true
                   | S754_finite false m e, S754_finite false m' e' =>
                       Pos.eqb m m' && (e =? e')
                   | _, _ => false
                   end
               | _, _ => false
               end) (seqZ 0 1001) = true)
    by (vm_compute; reflexivity).
  rewrite forallb_forall in Hall.
  specialize (Hall n ltac:(apply list_elem_of_In, elem_of_seqZ; lia)).
  destruct (system_cost (n * PANEL_WATTAGE) ≫= PyNum.as_float) as [a|];
    [|discriminate Hall].
  destruct (system_cost_simplified (n * PANEL_WATTAGE) ≫= PyNum.as_float)
    as [b|]; [|discriminate Hall].
  f_equal. apply Prim2SF_inj.
  destruct (Prim2SF a) as [[]|[]| |[] m e]; try discriminate Hall;
    destruct (Prim2SF b) as [[]|[]| |[] m' e']; try discriminate Hall;
    [reflexivity|].
  apply andb_true_iff in Hall as [Hm He].
  apply Pos.eqb_eq in Hm. apply Z.eqb_eq in He. congruence.
Qed.

Lemma system_cost_equals_simplified_up_to_1000_panels_witness :
  (system_cost 40000 ≫= PyNum.as_float)
  = (system_cost_simplified 40000 ≫= PyNum.as_float).
Proof.
  apply (system_cost_equals_simplified_up_to_1000_panels 100). lia.
Defined.

(** ** Sample runs of the page *)

Section PageSamples.


Lemma main_engine_call_succeeds_witness :
  exists calculations,
    calculate PyStr.ascii_lower (PDict sample_analysis) = Ok calculations /\
    snd (show_estimates calculations) = Ok tt /\
    main_outcome nat
      (sample_main (Ok (single_choice (Some "{analysis}"))) analysis_loads
         (Some sample_file)) = Ok tt.
Proof.
  exact (main_engine_call_succeeds PyStr.ascii_lower ascii_capitalize
           sample_repr "Analyze this satellite image." nat
           (counting_service (Ok (single_choice (Some "{analysis}"))))
           analysis_loads sample_file sample_image_base64 0%nat
           (PDict sample_analysis) eq_refl eq_refl eq_refl eq_refl).
Defined.

Lemma main_stops_on_client_exception_witness :
  let page :=
    sample_main
      (Raise (Exn JSONDecodeError "Expecting value: line 1 column 1 (char 0)"))
      sample_loads (Some sample_file) in
  main_outcome nat page
  = Raise (Exn UnboundLocalError
             "cannot access local variable 'response' where it is not associated with a value")
  /\ main_calls nat page
     = (page_header ++ upload_calls sample_file
        ++ [St_spinner_enter "Analyzing rooftop with AI... This may take a moment.";
            St_spinner_exit])%list.
Proof.
  exact (main_stops_on_client_exception PyStr.ascii_lower ascii_capitalize
           sample_repr "Analyze this satellite image." nat
           (counting_service
              (Raise (Exn JSONDecodeError
                        "Expecting value: line 1 column 1 (char 0)")))
           sample_loads sample_file sample_image_base64 0%nat
           (Exn UnboundLocalError
              "cannot access local variable 'response' where it is not associated with a value")
           eq_refl eq_refl).
Defined.

Lemma main_reports_failed_analysis_witness :
  let page :=
    sample_main (Ok (single_choice (Some "Sorry, I cannot help.")))
      sample_loads (Some sample_file) in
  main_outcome nat page = Ok tt /\
  main_calls nat page
  = (page_header ++ upload_calls sample_file
     ++ [St_spinner_enter "Analyzing rooftop with AI... This may take a moment.";
         St_error "Failed to parse AI response as JSON: Expecting value: line 1 column 1 (char 0). Raw response: Sorry, I cannot help.";
         St_subheader "AI-Powered Rooftop Analysis:";
         St_error "Analysis failed: JSON parsing error: Expecting value: line 1 column 1 (char 0)";
         St_text "Raw AI Response (for debugging):";
         St_code (PStr "Sorry, I cannot help.");
         St_spinner_exit])%list.
Proof.
  exact (main_reports_failed_analysis PyStr.ascii_lower ascii_capitalize
           sample_repr "Analyze this satellite image." nat
           (counting_service (Ok (single_choice (Some "Sorry, I cannot help."))))
           sample_loads sample_file sample_image_base64 0%nat
           [("error",
             PStr "JSON parsing error: Expecting value: line 1 column 1 (char 0)");
            ("raw_response", PStr "Sorry, I cannot help.")]
           (PStr "JSON parsing error: Expecting value: line 1 column 1 (char 0)")
           eq_refl eq_refl eq_refl).
Defined.

Lemma main_shows_engine_estimates_witness :
  exists calculations analysis_lines estimate_lines,
    perform_simplified_calculations PyStr.ascii_lower
      (PyOps.items sample_analysis) = Ok calculations /\
    show_analysis ascii_capitalize sample_repr (PDict sample_analysis)
    = (analysis_lines, Ok tt) /\
    show_estimates calculations = (estimate_lines, Ok tt) /\
    length analysis_lines = 5%nat /\
    length estimate_lines = 7%nat.
Proof.
  destruct (main_shows_engine_estimates PyStr.ascii_lower ascii_capitalize
              sample_repr "Analyze this satellite image." nat
              (counting_service (Ok (single_choice (Some "{analysis}"))))
              analysis_loads sample_file sample_image_base64 0%nat
              sample_analysis eq_refl eq_refl eq_refl)
    as (c & la & le & H1 & H2 & H3 & H4 & H5 & _).
  - split; [|split].
    + repeat (apply List.Forall_cons; [eexists; reflexivity|]).
      apply List.Forall_nil.
    + right. eexists. reflexivity.
    + right. eexists. reflexivity.
  - exists c, la, le. auto.
Defined.

End PageSamples.

Section EnginePropertySamples.

Import PyStr PyNum PyOps.

Lemma estimate_within_bounds_witness :
  exists r,
    perform_simplified_calculations ascii_lower small_poor = Ok r /\
    0 <= estimated_system_wattage r <= 13200.
Proof.
  destruct (estimate_within_bounds ascii_lower small_poor
              "small" "poor - significant shading" eq_refl eq_refl)
    as (r & k & c & v & Hr & _ & _ & Hw & _).
  exists r. split; assumption.
Defined.

Lemma no_size_keyword_gives_empty_estimate_witness :
  perform_simplified_calculations ascii_lower unknown_good = Ok empty_estimate.
Proof.
  apply (no_size_keyword_gives_empty_estimate ascii_lower unknown_good
           "unknown" "good" eq_refl eq_refl);
    apply PyStrFacts.contains_false; reflexivity.
Defined.

Lemma displayed_payback_depends_on_sunlight_only_witness :
  exists r,
    perform_simplified_calculations ascii_lower small_poor = Ok r /\
    show_roi (estimated_roi_years r)
    = write "- **Estimated ROI (Payback Period):** 15384.6 years".
Proof.
  destruct (displayed_payback_depends_on_sunlight_only ascii_lower small_poor
              "small" "poor - significant shading" eq_refl eq_refl)
    as (r & Hr & Hshow).
  exists r. split; [exact Hr|].
  rewrite Hshow.
  replace (estimated_usable_sq_ft r) with 100
    by (vm_compute in Hr; injection Hr as <-; reflexivity).
  reflexivity.
Defined.

End EnginePropertySamples.

(** ** When the client lets an exception escape *)

Section ClientEscapes.

Variable prompt_text : string.
Variable service : Type.
Variable create : chat_request -> service -> result chat_completion * service.
Variable json_loads : string -> result pyval.

Lemma try_block_json_error_after_response (response : chat_completion) (e : exn) :
  try_block json_loads (Ok response) = Raise e ->
  is_JSONDecodeError e = true ->
  exists c, message_content response = Ok c.
Proof.
  unfold try_block. cbn [mbind result_bind].
  destruct (message_content response) as [c|e'] eqn:Hc; [eauto|].
  intros [= <-] Hjson.
  unfold message_content in Hc.
  destruct (choices response); cbn in Hc; [|discriminate].
  injection Hc as <-. discriminate Hjson.
Qed.

(** The client lets an exception escape in exactly two cases: the call
    itself raised [JSONDecodeError], and what escapes is the
    [UnboundLocalError] of the handler; or the body of the [try] raised an
    exception that is not an [Exception], which escapes as it is. *)
Theorem client_raises_iff (image_base64 : string) (s : service) (escaped : exn) :
  outcome service
    (get_roof_analysis_from_ai prompt_text service create json_loads
       image_base64 s) = Raise escaped
  <->
  (exists e,
     fst (create (build_request prompt_text image_base64) s) = Raise e /\
     is_JSONDecodeError e = true /\
     escaped = Exn UnboundLocalError
                 "cannot access local variable 'response' where it is not associated with a value")
  \/
  (try_block json_loads (fst (create (build_request prompt_text image_base64) s))
   = Raise escaped /\
   is_Exception escaped = false).
Proof.
  unfold get_roof_analysis_from_ai.
  destruct (create (build_request prompt_text image_base64) s) as [called s'].
  cbn [fst].
  destruct (try_block json_loads called) as [v|e] eqn:Hbody.
  - cbn. split; [discriminate|].
    intros [(e & -> & _)|[H _]]; discriminate.
  - destruct (is_JSONDecodeError e) eqn:Hjson.
    + destruct called as [response|e0].
      * destruct (try_block_json_error_after_response _ _ Hbody Hjson)
          as [c Hc].
        cbn [read_response mbind result_bind]. rewrite Hc. cbn.
        split; [discriminate|].
        intros [(e1 & H & _)|[H Hexn]]; [discriminate H|].
        injection H as <-. destruct e as [[] ?]; discriminate.
      * cbn in Hbody. injection Hbody as ->. cbn.
        split.
        -- intros [= <-]. left. eauto.
        -- intros [(e1 & H & _ & ->)|[H Hexn]]; [reflexivity|].
           injection H as <-. destruct e as [[] ?]; discriminate.
    + destruct (is_Exception e) eqn:Hexn; cbn.
      * split; [discriminate|].
        intros [(e1 & -> & Hj & _)|[H Hexn']].
        -- cbn in Hbody. injection Hbody as ->. congruence.
        -- injection H as <-. congruence.
      * split.
        -- intros [= <-]. right. split; [reflexivity | exact Hexn].
        -- intros [(e1 & -> & Hj & _)|[H _]].
           ++ cbn in Hbody. injection Hbody as ->. congruence.
           ++ injection H as <-. reflexivity.
Qed.

End ClientEscapes.
